(** * Gas-fee tracker: state store, ingestion service and simulation panel

    A shallow embedding of
    - [src/store/gasStore.ts]        (the zustand store: [useGasStore]),
    - [src/services/blockchainService.ts] (the ingestion service),
    - [src/components/SimulationPanel.tsx] (the gas-limit input handler),
    followed by the properties established about them.

    Conventions of the embedding.
    - A TypeScript [number] holding a fee, a price, an amount or a gas limit
      is a rational [Q]: finite doubles are idealised as exact numbers, so
      rounding, [NaN] and the infinities are outside the model.  Equality of
      such values is [Qeq] ([==]).  Module [Binary64] restates the cost
      arithmetic on IEEE-754 doubles, to replay a scenario and to see what
      finiteness buys there.
    - Millisecond time stamps ([Date.now()]) and block numbers are [Z].
    - [Date.now()] and [Math.random()] are explicit arguments: every
      function that reads the clock or draws a random number receives the
      value read.
    - A zustand action [set(state => ...)] is a function
      [GasState.t -> GasState.t].
    - The [providers] field of the store (WebSocket handles) is not
      modelled. *)

From Stdlib Require Import ZArith QArith Qminmax Qabs Lqa Lia.
From Stdlib Require Import List String Ascii Bool Floats.
Import ListNotations.

Local Open Scope Z_scope.

(** ** Data model ([gasStore.ts]) *)

(** [keyof GasState['chains']] *)
Inductive ChainKey : Type := Ethereum | Polygon | Arbitrum.

Inductive Mode : Type := live | simulation.

Module GasPoint.
Record t : Type := mk {
  timestamp : Z;
  baseFee : Q;
  priorityFee : Q;
  totalFee : Q;
  usdPrice : option Q
}.
End GasPoint.

Module ChainData.
Record t : Type := mk {
  name : string;
  symbol : string;
  rpcUrl : string;
  baseFee : Q;
  priorityFee : Q;
  gasPrice : Q;
  blockNumber : Z;
  history : list GasPoint.t;
  isConnected : bool;
  lastUpdate : Z
}.

(** [Partial<ChainData>]: [None] is an absent key. *)
Record partial : Type := mkPartial {
  name' : option string;
  symbol' : option string;
  rpcUrl' : option string;
  baseFee' : option Q;
  priorityFee' : option Q;
  gasPrice' : option Q;
  blockNumber' : option Z;
  history' : option (list GasPoint.t);
  isConnected' : option bool;
  lastUpdate' : option Z
}.

(** The empty object [{}]. *)
Definition nothing : partial :=
  mkPartial None None None None None None None None None None.

Definition pick {A : Type} (old : A) (new : option A) : A :=
  match new with Some v => v | None => old end.

(** [{ ...old, ...data }] *)
Definition spread (old : t) (data : partial) : t :=
  mk (pick (name old) (name' data))
     (pick (symbol old) (symbol' data))
     (pick (rpcUrl old) (rpcUrl' data))
     (pick (baseFee old) (baseFee' data))
     (pick (priorityFee old) (priorityFee' data))
     (pick (gasPrice old) (gasPrice' data))
     (pick (blockNumber old) (blockNumber' data))
     (pick (history old) (history' data))
     (pick (isConnected old) (isConnected' data))
     (pick (lastUpdate old) (lastUpdate' data)).

Definition with_lastUpdate (now : Z) (c : t) : t :=
  mk (name c) (symbol c) (rpcUrl c) (baseFee c) (priorityFee c)
     (gasPrice c) (blockNumber c) (history c) (isConnected c) now.

Definition with_history (h : list GasPoint.t) (c : t) : t :=
  mk (name c) (symbol c) (rpcUrl c) (baseFee c) (priorityFee c)
     (gasPrice c) (blockNumber c) h (isConnected c) (lastUpdate c).
End ChainData.

Module SimulationData.
Record t : Type := mk {
  amount : string;
  gasLimit : Q;
  chain : string
}.

Record partial : Type := mkPartial {
  amount' : option string;
  gasLimit' : option Q;
  chain' : option string
}.

Definition spread (old : t) (data : partial) : t :=
  mk (ChainData.pick (amount old) (amount' data))
     (ChainData.pick (gasLimit old) (gasLimit' data))
     (ChainData.pick (chain old) (chain' data)).
End SimulationData.

Module Chains.
Record t : Type := mk {
  ethereum : ChainData.t;
  polygon : ChainData.t;
  arbitrum : ChainData.t
}.

(** [chains[chain]] *)
Definition get (chain : ChainKey) (cs : t) : ChainData.t :=
  match chain with
  | Ethereum => ethereum cs
  | Polygon => polygon cs
  | Arbitrum => arbitrum cs
  end.

(** [{ ...chains, [chain]: c }] *)
Definition set (chain : ChainKey) (c : ChainData.t) (cs : t) : t :=
  match chain with
  | Ethereum => mk c (polygon cs) (arbitrum cs)
  | Polygon => mk (ethereum cs) c (arbitrum cs)
  | Arbitrum => mk (ethereum cs) (polygon cs) c
  end.
End Chains.

Module GasState.
Record t : Type := mk {
  mode : Mode;
  chains : Chains.t;
  ethUsdPrice : Q;
  simulation : SimulationData.t;
  isLoading : bool;
  error : option string
}.

Definition with_chains (cs : Chains.t) (s : t) : t :=
  mk (mode s) cs (ethUsdPrice s) (simulation s) (isLoading s) (error s).
End GasState.

(** The return type of [calculateTransactionCost]. *)
Module Cost.
Record t : Type := mk {
  gasCostETH : Q;
  gasCostUSD : Q;
  totalCostETH : Q;
  totalCostUSD : Q
}.
End Cost.

(** ** The store ([useGasStore]) *)

Definition initialChainData : ChainData.t :=
  ChainData.mk "" "" "" 0%Q 0%Q 0%Q 0 [] false 0.

Definition initialState : GasState.t :=
  GasState.mk
    live
    (Chains.mk
       (ChainData.spread initialChainData
          (ChainData.mkPartial (Some "Ethereum"%string) (Some "ETH"%string)
             (Some "wss://eth-mainnet.g.alchemy.com/v2/demo"%string)
             None None None None None None None))
       (ChainData.spread initialChainData
          (ChainData.mkPartial (Some "Polygon"%string) (Some "MATIC"%string)
             (Some "wss://polygon-mainnet.g.alchemy.com/v2/demo"%string)
             None None None None None None None))
       (ChainData.spread initialChainData
          (ChainData.mkPartial (Some "Arbitrum"%string) (Some "ETH"%string)
             (Some "wss://arb-mainnet.g.alchemy.com/v2/demo"%string)
             None None None None None None None)))
    0%Q
    (SimulationData.mk "0.1" 21000%Q "ethereum")
    false
    None.

Definition setMode (m : Mode) (s : GasState.t) : GasState.t :=
  GasState.mk m (GasState.chains s) (GasState.ethUsdPrice s)
    (GasState.simulation s) (GasState.isLoading s) (GasState.error s).

(** [{ ...state.chains[chain], ...data, lastUpdate: Date.now() }] *)
Definition updateChainData (now : Z) (chain : ChainKey)
    (data : ChainData.partial) (s : GasState.t) : GasState.t :=
  let cs := GasState.chains s in
  GasState.with_chains
    (Chains.set chain
       (ChainData.with_lastUpdate now
          (ChainData.spread (Chains.get chain cs) data))
       cs)
    s.

(** [arr.slice(-n)]: the last [n] elements, the whole array when it is
    shorter. *)
Definition slice_last {A : Type} (n : nat) (l : list A) : list A :=
  skipn (List.length l - n) l.

Definition addGasPoint (chain : ChainKey) (point : GasPoint.t)
    (s : GasState.t) : GasState.t :=
  let chainData := Chains.get chain (GasState.chains s) in
  let newHistory :=
    slice_last 100 (ChainData.history chainData ++ [point]) in
  GasState.with_chains
    (Chains.set chain (ChainData.with_history newHistory chainData)
       (GasState.chains s))
    s.

Definition setEthUsdPrice (price : Q) (s : GasState.t) : GasState.t :=
  GasState.mk (GasState.mode s) (GasState.chains s) price
    (GasState.simulation s) (GasState.isLoading s) (GasState.error s).

Definition setSimulation (data : SimulationData.partial)
    (s : GasState.t) : GasState.t :=
  GasState.mk (GasState.mode s) (GasState.chains s) (GasState.ethUsdPrice s)
    (SimulationData.spread (GasState.simulation s) data)
    (GasState.isLoading s) (GasState.error s).

Definition setLoading (loading : bool) (s : GasState.t) : GasState.t :=
  GasState.mk (GasState.mode s) (GasState.chains s) (GasState.ethUsdPrice s)
    (GasState.simulation s) loading (GasState.error s).

Definition setError (e : option string) (s : GasState.t) : GasState.t :=
  GasState.mk (GasState.mode s) (GasState.chains s) (GasState.ethUsdPrice s)
    (GasState.simulation s) (GasState.isLoading s) e.

(** *** Chart data aggregation *)

(** [24 * 60 * 60 * 1000] *)
Definition dayMillis : Z := 24 * 60 * 60 * 1000.

(** The default value of [interval]: [15 * 60 * 1000]. *)
Definition defaultInterval : Z := 15 * 60 * 1000.

(** The accumulator of the [reduce] in [getChartData]. *)
Module FeeSum.
Record t : Type := mk {
  baseFee : Q;
  priorityFee : Q;
  totalFee : Q
}.
End FeeSum.

(** [point => point.timestamp >= time && point.timestamp < time + interval] *)
Definition inInterval (time interval : Z) (point : GasPoint.t) : bool :=
  (time <=? GasPoint.timestamp point)
  && (GasPoint.timestamp point <? time + interval).

(** [intervalPoints.reduce((acc, point) => ..., {baseFee: 0, ...})] *)
Definition sumFees (intervalPoints : list GasPoint.t) : FeeSum.t :=
  fold_left
    (fun acc point =>
       FeeSum.mk
         (FeeSum.baseFee acc + GasPoint.baseFee point)%Q
         (FeeSum.priorityFee acc + GasPoint.priorityFee point)%Q
         (FeeSum.totalFee acc + GasPoint.totalFee point)%Q)
    intervalPoints
    (FeeSum.mk 0%Q 0%Q 0%Q).

(** [intervalPoints.length] as a number. *)
Definition lengthQ {A : Type} (l : list A) : Q :=
  inject_Z (Z.of_nat (List.length l)).

(** The point pushed for one interval. *)
Definition averagePoint (time : Z) (intervalPoints : list GasPoint.t)
    : GasPoint.t :=
  let avg := sumFees intervalPoints in
  GasPoint.mk time
    (FeeSum.baseFee avg / lengthQ intervalPoints)%Q
    (FeeSum.priorityFee avg / lengthQ intervalPoints)%Q
    (FeeSum.totalFee avg / lengthQ intervalPoints)%Q
    None.

(** The loop
    [for (let time = intervalStart; time <= now; time += interval)],
    entered at [time] with the points pushed so far in [aggregated].
    [fuel] bounds the number of iterations; [None] means the bound was
    reached before the loop condition failed. *)
Fixpoint aggregateFrom (fuel : nat) (filteredHistory : list GasPoint.t)
    (interval now time : Z) (aggregated : list GasPoint.t)
    : option (list GasPoint.t) :=
  match fuel with
  | O => None
  | S fuel' =>
      if time <=? now then
        let intervalPoints :=
          filter (inInterval time interval) filteredHistory in
        let aggregated' :=
          if (0 <? List.length intervalPoints)%nat
          then aggregated ++ [averagePoint time intervalPoints]
          else aggregated in
        aggregateFrom fuel' filteredHistory interval now (time + interval)
          aggregated'
      else Some aggregated
  end.

(** [getChartData(chain, interval)] evaluated at clock value [now], with at
    most [fuel] iterations of its loop. *)
Definition getChartData_fuel (fuel : nat) (now : Z) (s : GasState.t)
    (chain : ChainKey) (interval : Z) : option (list GasPoint.t) :=
  let history := ChainData.history (Chains.get chain (GasState.chains s)) in
  if (List.length history =? 0)%nat then Some []
  else
    let intervalStart := now - dayMillis in
    let filteredHistory :=
      filter (fun point => intervalStart <=? GasPoint.timestamp point)
        history in
    aggregateFrom fuel filteredHistory interval now intervalStart [].

(** Iterations the loop makes for a positive [interval], plus the final
    test of the loop condition. *)
Definition chartFuel (interval : Z) : nat :=
  Z.to_nat (dayMillis / interval) + 2.

Definition getChartData (now : Z) (s : GasState.t) (chain : ChainKey)
    (interval : Z) : option (list GasPoint.t) :=
  getChartData_fuel (chartFuel interval) now s chain interval.

(** *** Transaction cost calculation *)

Definition calculateTransactionCost (s : GasState.t) (chain : ChainKey)
    (gasLimit amount : Q) : Cost.t :=
  let ethUsdPrice := GasState.ethUsdPrice s in
  let chainData := Chains.get chain (GasState.chains s) in
  let totalGasPrice :=
    (ChainData.baseFee chainData + ChainData.priorityFee chainData)%Q in
  let gasCostETH := ((totalGasPrice * gasLimit) / 1e9)%Q in
  let gasCostUSD := (gasCostETH * ethUsdPrice)%Q in
  let totalCostETH := (gasCostETH + amount)%Q in
  let totalCostUSD := (totalCostETH * ethUsdPrice)%Q in
  Cost.mk gasCostETH gasCostUSD totalCostETH totalCostUSD.

(** The same arithmetic on IEEE-754 binary64 values, the representation of
    a JavaScript [number]; used to replay scenarios on doubles. *)
Module Binary64.
Definition calculateTransactionCost
    (baseFee priorityFee ethUsdPrice gasLimit amount : float)
    : float * float * float * float :=
  let totalGasPrice := (baseFee + priorityFee)%float in
  let gasCostETH := ((totalGasPrice * gasLimit) / 1e9)%float in
  let gasCostUSD := (gasCostETH * ethUsdPrice)%float in
  let totalCostETH := (gasCostETH + amount)%float in
  let totalCostUSD := (totalCostETH * ethUsdPrice)%float in
  (gasCostETH, gasCostUSD, totalCostETH, totalCostUSD).
End Binary64.

(** ** The ingestion service ([blockchainService.ts]) *)

(** What the node returns to [handleNewBlock].  [baseFeePerGas] and
    [gasPrice] are [bigint] amounts of wei, [None] is [null]. *)
Record Block : Type := mkBlock { baseFeePerGas : option Z }.

(** [await provider.getBlock(blockNumber, false)] *)
Inductive GetBlockResult : Type :=
| GetBlockThrows
| GetBlockReturns (block : option Block).

(** [await provider.getFeeData()] *)
Inductive FeeDataResult : Type :=
| FeeDataThrows
| FeeDataReturns (gasPrice : option Z).

(** Truthiness of a nullable [bigint]: neither [null] nor [0n]. *)
Definition truthy (v : option Z) : option Z :=
  match v with
  | Some n => if n =? 0 then None else Some n
  | None => None
  end.

(** [Number(ethers.formatUnits(wei, 'gwei'))]: the amount divided by
    [10^9]. *)
Definition gweiOfWei (wei : Z) : Q := (inject_Z wei / 1e9)%Q.

(** The fee pair computed by [handleNewBlock] before it builds the point. *)
Definition blockFees (chainName : ChainKey) (block : Block)
    (feeData : FeeDataResult) : Q * Q :=
  let baseFee := 0%Q in
  let priorityFee := 2%Q in
  let baseFee :=
    match truthy (baseFeePerGas block) with
    | Some wei => gweiOfWei wei
    | None => baseFee
    end in
  match chainName with
  | Polygon | Arbitrum =>
      match feeData with
      | FeeDataReturns gasPrice =>
          match truthy gasPrice with
          | Some wei =>
              let gasPriceGwei := gweiOfWei wei in
              ((gasPriceGwei * 0.8)%Q, (gasPriceGwei * 0.2)%Q)
          | None => (baseFee, priorityFee)
          end
      | FeeDataThrows => (baseFee, priorityFee)
      end
  | Ethereum => (baseFee, priorityFee)
  end.

(** The [gasPoint] object literal of [handleNewBlock]. *)
Definition blockGasPoint (now : Z) (store : GasState.t)
    (fees : Q * Q) : GasPoint.t :=
  let (baseFee, priorityFee) := fees in
  let totalFee := (baseFee + priorityFee)%Q in
  GasPoint.mk now baseFee priorityFee totalFee
    (Some (GasState.ethUsdPrice store)).

(** [handleNewBlock(chainName, blockNumber, provider)].  [nowPoint] is the
    clock read for the point's time stamp, [nowUpdate] the one read inside
    [updateChainData].  A rejected [getBlock] is caught and logged. *)
Definition handleNewBlock (chainName : ChainKey) (blockNumber : Z)
    (getBlock : GetBlockResult) (getFeeData : FeeDataResult)
    (nowPoint nowUpdate : Z) (s : GasState.t) : GasState.t :=
  match getBlock with
  | GetBlockThrows => s
  | GetBlockReturns None => s
  | GetBlockReturns (Some block) =>
      let store := s in
      let fees := blockFees chainName block getFeeData in
      let gasPoint := blockGasPoint nowPoint store fees in
      let s1 :=
        updateChainData nowUpdate chainName
          (ChainData.mkPartial None None None
             (Some (GasPoint.baseFee gasPoint))
             (Some (GasPoint.priorityFee gasPoint))
             (Some (GasPoint.totalFee gasPoint))
             (Some blockNumber) None None None)
          s in
      addGasPoint chainName gasPoint s1
  end.

(** [setupProvider]: the connection attempt either succeeds or is caught;
    both paths record the outcome in [isConnected]. *)
Definition setupProvider (now : Z) (chainName : ChainKey)
    (connected : bool) (s : GasState.t) : GasState.t :=
  updateChainData now chainName
    (ChainData.mkPartial None None None None None None None None
       (Some connected) None)
    s.

(** *** Simulated data *)

Record SimConfig : Type := mkSimConfig {
  base : Q;
  priority : Q;
  variance : Q
}.

Definition baseGasPrices (chainName : ChainKey) : SimConfig :=
  match chainName with
  | Ethereum => mkSimConfig 15 2 5
  | Polygon => mkSimConfig 35 30 10
  | Arbitrum => mkSimConfig 0.1 0.05 0.05
  end.

(** What one iteration of the [chains.forEach] of [updateSimulatedData]
    reads from its environment: two [Math.random()] draws and three clock
    reads (point time stamp, block number, [updateChainData]). *)
Record ChainDraw : Type := mkChainDraw {
  randomBase : Q;
  randomPriority : Q;
  nowPoint : Z;
  nowBlock : Z;
  nowUpdate : Z
}.

(** The [gasPoint] object literal of [updateSimulatedData]. *)
Definition simulatedGasPoint (store : GasState.t) (chainName : ChainKey)
    (d : ChainDraw) : GasPoint.t :=
  let config := baseGasPrices chainName in
  let baseFee := (base config + (randomBase d - 0.5) * variance config)%Q in
  let priorityFee :=
    (priority config
     + (randomPriority d - 0.5) * (variance config * 0.3))%Q in
  let totalFee := (baseFee + priorityFee)%Q in
  GasPoint.mk (nowPoint d)
    (Qmax 0.01 baseFee)
    (Qmax 0.01 priorityFee)
    (Qmax 0.02 totalFee)
    (Some (GasState.ethUsdPrice store)).

(** One iteration of the [forEach]. *)
Definition simulateChain (store : GasState.t) (chainName : ChainKey)
    (d : ChainDraw) (s : GasState.t) : GasState.t :=
  let gasPoint := simulatedGasPoint store chainName d in
  let s1 :=
    updateChainData (nowUpdate d) chainName
      (ChainData.mkPartial None None None
         (Some (GasPoint.baseFee gasPoint))
         (Some (GasPoint.priorityFee gasPoint))
         (Some (GasPoint.totalFee gasPoint))
         (Some (nowBlock d / 6000)) None None None)
      s in
  addGasPoint chainName gasPoint s1.

Record TickDraws : Type := mkTickDraws {
  drawEthereum : ChainDraw;
  drawPolygon : ChainDraw;
  drawArbitrum : ChainDraw;
  randomPrice : Q
}.

(** [updateSimulatedData()]: [store] is the snapshot taken on entry. *)
Definition updateSimulatedData (draws : TickDraws) (s : GasState.t)
    : GasState.t :=
  let store := s in
  let s1 := simulateChain store Ethereum (drawEthereum draws) s in
  let s2 := simulateChain store Polygon (drawPolygon draws) s1 in
  let s3 := simulateChain store Arbitrum (drawArbitrum draws) s2 in
  let currentPrice := GasState.ethUsdPrice store in
  let priceChange := ((randomPrice draws - 0.5) * 10)%Q in
  setEthUsdPrice (Qmax 1000 (currentPrice + priceChange)) s3.

(** [setupDemoData()]: [now1..now3] are the clock reads of the three
    [updateChainData] calls. *)
Definition setupDemoData (now1 now2 now3 : Z) (draws : TickDraws)
    (s : GasState.t) : GasState.t :=
  let connected :=
    ChainData.mkPartial None None None None None None None None
      (Some true) None in
  let s1 := updateChainData now1 Ethereum connected s in
  let s2 := updateChainData now2 Polygon connected s1 in
  let s3 := updateChainData now3 Arbitrum connected s2 in
  let s4 := setEthUsdPrice 2347.82 s3 in
  updateSimulatedData draws s4.

(** *** Price oracle *)

(** A computation that returns a value or throws. *)
Inductive Completion (A : Type) : Type :=
| Returned (a : A)
| Threw (message : string).
Arguments Returned {A} a.
Arguments Threw {A} message.

(** [try { body } catch (error) { handler }] *)
Definition tryCatch {A : Type} (body : Completion A)
    (handler : string -> Completion A) : Completion A :=
  match body with
  | Returned a => Returned a
  | Threw message => handler message
  end.

(** What [updateEthPrice] meets: no Ethereum provider, a rejected
    [slot0()] call, or the price that [calculatePriceFromSqrtPriceX96]
    computes from the answer (the conversion of the 160-bit value to a
    double is not modelled). *)
Inductive OracleOutcome : Type :=
| NoProvider
| Slot0Throws (message : string)
| Slot0Price (price : Q).

(** The body of the [try] block of [updateEthPrice]. *)
Definition updateEthPrice_try (outcome : OracleOutcome) (s : GasState.t)
    : Completion GasState.t :=
  match outcome with
  | NoProvider => Returned s
  | Slot0Throws message => Threw message
  | Slot0Price price => Returned (setEthUsdPrice price s)
  end.

Definition updateEthPrice (outcome : OracleOutcome) (s : GasState.t)
    : Completion GasState.t :=
  tryCatch (updateEthPrice_try outcome s)
    (fun _ =>
       let store := s in
       if Qeq_bool (GasState.ethUsdPrice store) 0
       then Returned (setEthUsdPrice 2000 s)
       else Returned s).

(** ** The simulation panel ([SimulationPanel.tsx]) *)

(** White space skipped by [parseInt] (the ASCII part of
    [StrWhiteSpaceChar]): TAB, LF, VT, FF, CR, SP. *)
Definition isWhiteSpace (c : ascii) : bool :=
  let n := Z.of_N (N_of_ascii c) in
  ((9 <=? n) && (n <=? 13)) || (n =? 32).

Fixpoint trimStart (s : string) : string :=
  match s with
  | String c rest => if isWhiteSpace c then trimStart rest else s
  | EmptyString => s
  end.

(** The value of [c] as a digit in [radix], if it is one. *)
Definition digitValue (radix : Z) (c : ascii) : option Z :=
  let n := Z.of_N (N_of_ascii c) in
  let v :=
    if (48 <=? n) && (n <=? 57) then Some (n - 48)
    else if (97 <=? n) && (n <=? 122) then Some (n - 87)
    else if (65 <=? n) && (n <=? 90) then Some (n - 55)
    else None in
  match v with
  | Some d => if d <? radix then Some d else None
  | None => None
  end.

(** The number written by the longest prefix of [s] made of digits of
    [radix]; [acc] is the value read so far, [None] while no digit was
    read. *)
Fixpoint digitsPrefix (radix : Z) (s : string) (acc : option Z)
    : option Z :=
  match s with
  | String c rest =>
      match digitValue radix c with
      | Some d =>
          digitsPrefix radix rest
            (Some (match acc with Some a => a * radix + d | None => d end))
      | None => acc
      end
  | EmptyString => acc
  end.

(** [parseInt(s)] without a radix argument; [None] is [NaN].  The integer
    is exact: the rounding of integers beyond [2^53], and their overflow
    to [Infinity], are not modelled. *)
Definition parseInt (s : string) : option Z :=
  let s1 := trimStart s in
  let (sign, s2) :=
    match s1 with
    | String "-" rest => (-1, rest)
    | String "+" rest => (1, rest)
    | _ => (1, s1)
    end in
  let (radix, s3) :=
    match s2 with
    | String "0" (String "x" rest) => (16, rest)
    | String "0" (String "X" rest) => (16, rest)
    | _ => (10, s2)
    end in
  option_map (Z.mul sign) (digitsPrefix radix s3 None).

(** [parseInt(value) || 21000]: the right operand replaces [NaN] and [0]. *)
Definition parsedGasLimit (value : string) : Z :=
  match parseInt value with
  | Some n => if n =? 0 then 21000 else n
  | None => 21000
  end.

Definition handleGasLimitChange (value : string) (s : GasState.t)
    : GasState.t :=
  let numValue := parsedGasLimit value in
  setSimulation
    (SimulationData.mkPartial None (Some (inject_Z numValue)) None) s.

(** ** Runs of the application *)

(** The calls that write to the store: the service's ([setupProvider],
    [handleNewBlock], [updateEthPrice], [setupDemoData],
    [updateSimulatedData], [setLoading], [setError]) and the presentation
    layer's ([setMode], [setSimulation], [handleGasLimitChange]). *)
Inductive Event : Type :=
| EvSetupProvider (now : Z) (chainName : ChainKey) (connected : bool)
| EvNewBlock (chainName : ChainKey) (blockNumber : Z)
    (getBlock : GetBlockResult) (getFeeData : FeeDataResult)
    (nowPoint nowUpdate : Z)
| EvUpdateEthPrice (outcome : OracleOutcome)
| EvSetupDemoData (now1 now2 now3 : Z) (draws : TickDraws)
| EvSimulatedTick (draws : TickDraws)
| EvSetLoading (loading : bool)
| EvSetError (e : option string)
| EvSetMode (m : Mode)
| EvSetSimulation (data : SimulationData.partial)
| EvGasLimitInput (value : string).

Definition step (ev : Event) (s : GasState.t) : GasState.t :=
  match ev with
  | EvSetupProvider now chainName connected =>
      setupProvider now chainName connected s
  | EvNewBlock chainName blockNumber getBlock getFeeData nowPoint nowUpdate =>
      handleNewBlock chainName blockNumber getBlock getFeeData
        nowPoint nowUpdate s
  | EvUpdateEthPrice outcome =>
      match updateEthPrice outcome s with
      | Returned s' => s'
      | Threw _ => s
      end
  | EvSetupDemoData now1 now2 now3 draws =>
      setupDemoData now1 now2 now3 draws s
  | EvSimulatedTick draws => updateSimulatedData draws s
  | EvSetLoading loading => setLoading loading s
  | EvSetError e => setError e s
  | EvSetMode m => setMode m s
  | EvSetSimulation data => setSimulation data s
  | EvGasLimitInput value => handleGasLimitChange value s
  end.

(** The state after the events of [evs], oldest first, from [s]. *)
Definition run (evs : list Event) (s : GasState.t) : GasState.t :=
  fold_left (fun s ev => step ev s) evs s.

(** A nullable [bigint] read from the chain is an unsigned quantity. *)
Definition unsignedWei (v : option Z) : Prop :=
  match v with Some n => 0 <= n | None => True end.

(** [Math.random()] returns a number in [[0, 1)]. *)
Definition unitInterval (r : Q) : Prop := (0 <= r /\ r < 1)%Q.

Definition validDraw (d : ChainDraw) : Prop :=
  unitInterval (randomBase d) /\ unitInterval (randomPriority d).

Definition validDraws (draws : TickDraws) : Prop :=
  validDraw (drawEthereum draws) /\ validDraw (drawPolygon draws)
  /\ validDraw (drawArbitrum draws) /\ unitInterval (randomPrice draws).

Definition validBlock (getBlock : GetBlockResult) : Prop :=
  match getBlock with
  | GetBlockReturns (Some block) => unsignedWei (baseFeePerGas block)
  | _ => True
  end.

Definition validFeeData (getFeeData : FeeDataResult) : Prop :=
  match getFeeData with
  | FeeDataReturns gasPrice => unsignedWei gasPrice
  | FeeDataThrows => True
  end.

(** What the environment guarantees about the inputs of an event. *)
Definition validEvent (ev : Event) : Prop :=
  match ev with
  | EvNewBlock _ _ getBlock getFeeData _ _ =>
      validBlock getBlock /\ validFeeData getFeeData
  | EvSetupDemoData _ _ _ draws => validDraws draws
  | EvSimulatedTick draws => validDraws draws
  | _ => True
  end.

(** ** Predicates used in the statements *)

(** The record of [chain] in [s]. *)
Definition chainOf (chain : ChainKey) (s : GasState.t) : ChainData.t :=
  Chains.get chain (GasState.chains s).

(** [history] of [chain] in [s]. *)
Definition historyOf (chain : ChainKey) (s : GasState.t)
    : list GasPoint.t :=
  ChainData.history (Chains.get chain (GasState.chains s)).

(** [addGasPoint] called once per point of [points], oldest first. *)
Definition addGasPoints (chain : ChainKey) (points : list GasPoint.t)
    (s : GasState.t) : GasState.t :=
  fold_left (fun s point => addGasPoint chain point s) points s.



(** [totalFee = baseFee + priorityFee] *)
Definition feeConsistent (p : GasPoint.t) : Prop :=
  (GasPoint.totalFee p == GasPoint.baseFee p + GasPoint.priorityFee p)%Q.

Definition feesNonNegative (p : GasPoint.t) : Prop :=
  (0 <= GasPoint.baseFee p /\ 0 <= GasPoint.priorityFee p
   /\ 0 <= GasPoint.totalFee p)%Q.

Definition wellFormedPoint (p : GasPoint.t) : Prop :=
  feeConsistent p /\ feesNonNegative p.

(** [gasPrice = baseFee + priorityFee] on a chain record. *)
Definition gasPriceIsSum (c : ChainData.t) : Prop :=
  (ChainData.gasPrice c == ChainData.baseFee c + ChainData.priorityFee c)%Q.

(** What holds of every chain record in the states the application
    reaches. *)
Definition chainInvariant (c : ChainData.t) : Prop :=
  gasPriceIsSum c
  /\ (List.length (ChainData.history c) <= 100)%nat
  /\ Forall wellFormedPoint (ChainData.history c).

Definition storeInvariant (s : GasState.t) : Prop :=
  forall chain : ChainKey, chainInvariant (chainOf chain s).

(** The partial record passed to [updateChainData] by [handleNewBlock]
    and [updateSimulatedData]. *)
Definition feeUpdate (gasPoint : GasPoint.t) (blockNumber : Z)
    : ChainData.partial :=
  ChainData.mkPartial None None None
    (Some (GasPoint.baseFee gasPoint))
    (Some (GasPoint.priorityFee gasPoint))
    (Some (GasPoint.totalFee gasPoint))
    (Some blockNumber) None None None.

(** The sum and the arithmetic mean of a list of numbers. *)
Definition Qsum (l : list Q) : Q := fold_right Qplus 0%Q l.

Definition mean (l : list Q) : Q := (Qsum l / lengthQ l)%Q.

(** ** The aggregated series, bucket by bucket *)

(** The raw points of the bucket that starts at [time]: those whose time
    stamp lies in [[time, time + interval)]. *)
Definition bucketOf (history : list GasPoint.t) (time interval : Z)
    : list GasPoint.t :=
  filter (inInterval time interval) history.

(** The starts of the buckets of the 24-hour window that ends at [now]:
    [now - 24h], then every [interval] up to [now]. *)
Definition bucketStarts (now interval : Z) : list Z :=
  map (fun k => now - dayMillis + Z.of_nat k * interval)
    (seq 0 (Z.to_nat (dayMillis / interval) + 1)).

(** One point for a bucket that has raw points, none for an empty one. *)
Definition bucketPoint (history : list GasPoint.t) (interval time : Z)
    : list GasPoint.t :=
  match bucketOf history time interval with
  | [] => []
  | (_ :: _) as intervalPoints => [averagePoint time intervalPoints]
  end.

(** The series as the specification of [getAggregatedSeries] words it:
    one point per non-empty bucket of the window, in order of bucket
    start. *)
Definition aggregatedSeries (now : Z) (history : list GasPoint.t)
    (interval : Z) : list GasPoint.t :=
  flat_map (bucketPoint history interval) (bucketStarts now interval).

(** ** Sample inputs *)

(** 101 distinct points, numbered by their time stamp. *)
Definition samplePoints : list GasPoint.t :=
  map (fun n => GasPoint.mk (Z.of_nat n) 10 2 12 None) (seq 0 101).

(** Only [baseFee] is passed to [updateChainData]. *)
Definition onlyBaseFee (baseFee : Q) : ChainData.partial :=
  ChainData.mkPartial None None None (Some baseFee) None None None None
    None None.

(** The state of scenario B on [chain]: [baseFee = 10], [priorityFee = 2],
    [ethUsdPrice = 2000]. *)
Definition scenarioBState (chain : ChainKey) : GasState.t :=
  setEthUsdPrice 2000
    (updateChainData 1000 chain
       (ChainData.mkPartial None None None (Some 10%Q) (Some 2%Q)
          (Some 12%Q) None None None None)
       initialState).


(** A block of a chain that reports a base fee of 30 gwei. *)
Definition sampleBlock : Block := mkBlock (Some 30000000000).

(** Draws at the middle of the unit interval. *)
Definition sampleDraw (now : Z) : ChainDraw :=
  mkChainDraw 0.5 0.5 now now now.

Definition sampleDraws (now : Z) : TickDraws :=
  mkTickDraws (sampleDraw now) (sampleDraw now) (sampleDraw now) 0.5.

(** A run: start in demo mode, one simulated tick, one live block with a
    fee-data answer of 50 gwei, a failed price update. *)
Definition sampleRun : list Event :=
  [ EvSetupDemoData 1000 1001 1002 (sampleDraws 1003);
    EvSimulatedTick (sampleDraws 7000);
    EvNewBlock Polygon 17 (GetBlockReturns (Some sampleBlock))
      (FeeDataReturns (Some 50000000000)) 8000 8001;
    EvUpdateEthPrice (Slot0Throws "timeout") ].

(** The three points of scenario A, whatever their other fields. *)
Definition scenarioAPoints (b1 p1 b2 p2 b3 p3 : Q) (u1 u2 u3 : option Q)
    : list GasPoint.t :=
  [ GasPoint.mk 0 b1 p1 15 u1;
    GasPoint.mk 400000 b2 p2 20 u2;
    GasPoint.mk 800000 b3 p3 25 u3 ].

(** A store whose Ethereum history is the three points of scenario A with
    base fees 13, 18, 23 and a priority fee of 2. *)
Definition scenarioAState : GasState.t :=
  addGasPoints Ethereum (scenarioAPoints 13 2 18 2 23 2 None None None)
    initialState.

(** ** Further definitions

    The rest of the store's and the service's behaviour, and the code
    that reads the store: the amount field, the chain comparison and the
    cost table of [SimulationPanel.tsx], the widget of [GasWidget.tsx],
    the status bar of [Dashboard.tsx], the candles of [ChartWidget.tsx]
    and the life cycle of [BlockchainService] in both of its revisions. *)

From Stdlib Require Import Sorted Qpower.

(** *** The window of [getChartData] *)

(** [point => point.timestamp >= intervalStart] at clock value [now]. *)
Definition inWindow (now : Z) (point : GasPoint.t) : bool :=
  now - dayMillis <=? GasPoint.timestamp point.

(** [filteredHistory]: the raw points of the trailing 24 hours. *)
Definition windowHistory (now : Z) (history : list GasPoint.t)
    : list GasPoint.t :=
  filter (inWindow now) history.

(** The time stamps of a series. *)
Definition timestamps (series : list GasPoint.t) : list Z :=
  map GasPoint.timestamp series.

(** The number of raw points a point of the series stands for. *)
Definition bucketSize (history : list GasPoint.t) (interval : Z)
    (q : GasPoint.t) : nat :=
  List.length (bucketOf history (GasPoint.timestamp q) interval).

(** The raw points stamped in [[from, to)]. *)
Definition inRange (from to : Z) (point : GasPoint.t) : bool :=
  (from <=? GasPoint.timestamp point) && (GasPoint.timestamp point <? to).


(** *** The newest point of a history *)

(** [history[history.length - 1]], if there is one. *)
Definition newestPoint (history : list GasPoint.t) : option GasPoint.t :=
  hd_error (rev history).

(** The current fees of a chain record are those of the newest point of
    its history, and are the initial zeros while the history is empty. *)
Definition snapshotMirrorsNewest (c : ChainData.t) : Prop :=
  match newestPoint (ChainData.history c) with
  | Some p =>
      ChainData.baseFee c = GasPoint.baseFee p
      /\ ChainData.priorityFee c = GasPoint.priorityFee p
      /\ ChainData.gasPrice c = GasPoint.totalFee p
  | None =>
      ChainData.baseFee c = 0%Q /\ ChainData.priorityFee c = 0%Q
      /\ ChainData.gasPrice c = 0%Q /\ ChainData.blockNumber c = 0
  end.

(** What a store holds besides its chain records. *)
Definition sameSettings (s1 s2 : GasState.t) : Prop :=
  GasState.mode s1 = GasState.mode s2
  /\ GasState.ethUsdPrice s1 = GasState.ethUsdPrice s2
  /\ GasState.simulation s1 = GasState.simulation s2
  /\ GasState.isLoading s1 = GasState.isLoading s2
  /\ GasState.error s1 = GasState.error s2.

(** The draw of [draws] used for [chainName]. *)
Definition drawFor (draws : TickDraws) (chainName : ChainKey) : ChainDraw :=
  match chainName with
  | Ethereum => drawEthereum draws
  | Polygon => drawPolygon draws
  | Arbitrum => drawArbitrum draws
  end.

(** ** The gas widget ([GasWidget.tsx]) *)

Definition standardGasLimit : Q := 21000.

(** [gasCostETH] and [gasCostUSD] of the widget: the cost of a standard
    transfer at the record's [gasPrice]. *)
Definition widgetCost (chainData : ChainData.t) (ethUsdPrice : Q) : Q * Q :=
  let gasCostETH :=
    ((ChainData.gasPrice chainData * standardGasLimit) / 1e9)%Q in
  let gasCostUSD := (gasCostETH * ethUsdPrice)%Q in
  (gasCostETH, gasCostUSD).


(** [a < b] on numbers. *)
Definition Qltb (a b : Q) : bool := negb (Qle_bool b a).



(** ** The dashboard ([Dashboard.tsx]) *)




(** ** Comparing the chains ([SimulationPanel.tsx]) *)

(** The object built by [getTransactionCosts]. *)
Record Costs : Type := mkCosts {
  costsEthereum : Cost.t;
  costsPolygon : Cost.t;
  costsArbitrum : Cost.t
}.


(** [Object.entries(costs)], in the order of the keys. *)
Definition costEntries (costs : Costs) : list (ChainKey * Cost.t) :=
  [ (Ethereum, costsEthereum costs);
    (Polygon, costsPolygon costs);
    (Arbitrum, costsArbitrum costs) ].

(** [costs[chain]] *)
Definition costOf (costs : Costs) (chain : ChainKey) : Cost.t :=
  match chain with
  | Ethereum => costsEthereum costs
  | Polygon => costsPolygon costs
  | Arbitrum => costsArbitrum costs
  end.

Definition getCheapestChain (costs : Costs) : ChainKey * Cost.t :=
  fold_left
    (fun cheapest entry =>
       if Qltb (Cost.gasCostUSD (snd entry)) (Cost.gasCostUSD (snd cheapest))
       then entry
       else cheapest)
    (costEntries costs)
    (Ethereum, costsEthereum costs).

(** The position of a chain among the keys of [costs]. *)
Definition chainIndex (chain : ChainKey) : nat :=
  match chain with Ethereum => 0 | Polygon => 1 | Arbitrum => 2 end.

(** ** The amount field ([SimulationPanel.tsx]) *)

(** [\d]: an ASCII decimal digit, with its value. *)
Definition decimalDigit (c : ascii) : option Z := digitValue 10 c.

(** The decimal digits at the start of [s], and what follows them. *)
Fixpoint takeDigits (s : string) : list Z * string :=
  match s with
  | String c rest =>
      match decimalDigit c with
      | Some d => let (ds, tail) := takeDigits rest in (d :: ds, tail)
      | None => ([], s)
      end
  | EmptyString => ([], s)
  end.

(** [/^\d*\.?\d*$/.test(value)]: digits, then at most one dot, then
    digits, and nothing else. *)
Definition amountPattern (value : string) : bool :=
  match snd (takeDigits value) with
  | EmptyString => true
  | String "." rest =>
      match snd (takeDigits rest) with
      | EmptyString => true
      | String _ _ => false
      end
  | String _ _ => false
  end.

Definition handleAmountChange (value : string) (s : GasState.t)
    : GasState.t :=
  if (value =? "")%string || amountPattern value
  then setSimulation (SimulationData.mkPartial (Some value) None None) s
  else s.

(** A number as [parseFloat] returns it. *)
Inductive JsNumber : Type :=
| NaN
| Finite (q : Q)
| Infinite (negative : bool).

(** The number written by a list of decimal digits. *)
Definition digitsValue (ds : list Z) : Z :=
  fold_left (fun acc d => acc * 10 + d) ds 0.

(** The value of [ExponentPart] at the start of [s], 0 when there is
    none: [e] or [E], an optional sign, at least one digit. *)
Definition exponentOf (s : string) : Z :=
  match s with
  | String c rest =>
      if (Ascii.eqb c "e" || Ascii.eqb c "E")%bool then
        let (sign, afterSign) :=
          match rest with
          | String "+" r => (1, r)
          | String "-" r => (-1, r)
          | _ => (1, rest)
          end in
        match fst (takeDigits afterSign) with
        | [] => 0
        | (_ :: _) as ds => sign * digitsValue ds
        end
      else 0
  | EmptyString => 0
  end.

(** The number with integer digits [whole], fraction digits [fraction]
    and decimal exponent [exponent]. *)
Definition decimalValue (whole fraction : list Z) (exponent : Z) : Q :=
  (inject_Z (digitsValue (whole ++ fraction))
   * 10 ^ (exponent - Z.of_nat (List.length fraction)))%Q.

(** The longest prefix of [s] that is a [StrUnsignedDecimalLiteral]. *)
Definition unsignedDecimal (s : string) : JsNumber :=
  if String.prefix "Infinity" s then Infinite false
  else
    let (whole, afterWhole) := takeDigits s in
    match afterWhole with
    | String "." afterDot =>
        let (fraction, afterFraction) := takeDigits afterDot in
        match whole, fraction with
        | [], [] => NaN
        | _, _ =>
            Finite (decimalValue whole fraction (exponentOf afterFraction))
        end
    | _ =>
        match whole with
        | [] => NaN
        | _ :: _ => Finite (decimalValue whole [] (exponentOf afterWhole))
        end
    end.

Definition negate (n : JsNumber) : JsNumber :=
  match n with
  | NaN => NaN
  | Finite q => Finite (- q)
  | Infinite negative => Infinite (negb negative)
  end.

(** [parseFloat(s)].  The value is exact: rounding to a double, and the
    overflow of a long digit string to [Infinity], are not modelled. *)
Definition parseFloat (s : string) : JsNumber :=
  match trimStart s with
  | String "-" rest => negate (unsignedDecimal rest)
  | String "+" rest => unsignedDecimal rest
  | trimmed => unsignedDecimal trimmed
  end.

(** [n || 0]: the right operand replaces [NaN] and 0. *)
Definition orZero (n : JsNumber) : JsNumber :=
  match n with
  | NaN => Finite 0
  | other => other
  end.

(** [parseFloat(simulation.amount) || 0] *)
Definition simulationAmount (s : GasState.t) : JsNumber :=
  orZero (parseFloat (SimulationData.amount (GasState.simulation s))).

(** What the user does in the panel. *)
Inductive PanelEvent : Type :=
| AmountInput (value : string)
| GasLimitInput (value : string)
| ChainSelect (chain : string)
| ModeClick (m : Mode).

Definition panelStep (ev : PanelEvent) (s : GasState.t) : GasState.t :=
  match ev with
  | AmountInput value => handleAmountChange value s
  | GasLimitInput value => handleGasLimitChange value s
  | ChainSelect chain =>
      setSimulation (SimulationData.mkPartial None None (Some chain)) s
  | ModeClick m => setMode m s
  end.

(** The state after the panel events of [evs], oldest first. *)
Definition panelRun (evs : list PanelEvent) (s : GasState.t) : GasState.t :=
  fold_left (fun s ev => panelStep ev s) evs s.

(** The string [s] is made of decimal digits only, [ds] in order. *)
Definition digitString (ds : list Z) (s : string) : Prop :=
  takeDigits s = (ds, EmptyString).

(** ** The candlestick chart ([ChartWidget.tsx]) *)

Module Candle.
Record t : Type := mk {
  time : Q;
  open : Q;
  high : Q;
  low : Q;
  close : Q
}.
End Candle.

Module LinePoint.
Record t : Type := mk {
  time : Q;
  value : Q
}.
End LinePoint.

(** [chartData.slice(i, i + 4)] *)
Definition sliceFour {A : Type} (i : nat) (l : list A) : list A :=
  firstn 4 (skipn i l).

(** [Math.max(...values)] and [Math.min(...values)] of a list with first
    element [first]. *)
Definition maxOf (first : Q) (others : list Q) : Q :=
  fold_left Qmax others first.

Definition minOf (first : Q) (others : list Q) : Q :=
  fold_left Qmin others first.

(** The candle and the USD point pushed for one group of points, whose
    first point is [first]. *)
Definition candleOf (ethUsdPrice : Q) (first : GasPoint.t)
    (others : list GasPoint.t) : Candle.t * LinePoint.t :=
  let open := GasPoint.totalFee first in
  let close := GasPoint.totalFee (last others first) in
  let high := maxOf (GasPoint.totalFee first) (map GasPoint.totalFee others) in
  let low := minOf (GasPoint.totalFee first) (map GasPoint.totalFee others) in
  let time := (inject_Z (GasPoint.timestamp first) / 1000)%Q in
  let usdValue := (close * 21000 / 1e9 * ethUsdPrice)%Q in
  (Candle.mk time open high low close, LinePoint.mk time usdValue).

(** The loop [for (let i = 0; i < chartData.length - 4; i += 4)] entered
    at [i] with the candles and USD points pushed so far; [fuel] bounds
    the number of iterations. *)
Fixpoint candleLoop (fuel : nat) (chartData : list GasPoint.t)
    (ethUsdPrice : Q) (i : nat)
    (candlestickData : list Candle.t) (lineData : list LinePoint.t)
    : option (list Candle.t * list LinePoint.t) :=
  match fuel with
  | O => None
  | S fuel' =>
      if Z.of_nat i <? Z.of_nat (List.length chartData) - 4 then
        match sliceFour i chartData with
        | [] =>
            candleLoop fuel' chartData ethUsdPrice (i + 4)
              candlestickData lineData
        | first :: others =>
            let (candle, point) := candleOf ethUsdPrice first others in
            candleLoop fuel' chartData ethUsdPrice (i + 4)
              (candlestickData ++ [candle]) (lineData ++ [point])
        end
      else Some (candlestickData, lineData)
  end.

(** What the chart effect passes to [setData] once the chart exists,
    [None] when it returns before ([chartData] is empty).  The loop runs
    at most once per point. *)
Definition chartSeries (chartData : list GasPoint.t) (ethUsdPrice : Q)
    : option (list Candle.t * list LinePoint.t) :=
  if (List.length chartData =? 0)%nat then None
  else
    candleLoop (S (List.length chartData)) chartData ethUsdPrice 0 [] [].

(** Groups of four consecutive points that are followed by at least one
    more point. *)
Fixpoint groupsOfFour (l : list GasPoint.t)
    : list (GasPoint.t * list GasPoint.t) :=
  match l with
  | a :: ((b :: c :: d :: ((_ :: _) as rest))) =>
      (a, [b; c; d]) :: groupsOfFour rest
  | _ => []
  end.

(** The candles and the USD points of the groups of [chartData]. *)
Definition candlesOfGroups (chartData : list GasPoint.t) (ethUsdPrice : Q)
    : list Candle.t * list LinePoint.t :=
  let pairs :=
    map (fun g => candleOf ethUsdPrice (fst g) (snd g))
      (groupsOfFour chartData) in
  (map fst pairs, map snd pairs).

(** Eleven points with total fees 1 to 11, stamped every 900 seconds. *)
Definition sampleSeries : list GasPoint.t :=
  map (fun n =>
         GasPoint.mk (Z.of_nat n * 900000) 0 0 (inject_Z (Z.of_nat n + 1))
           None)
    (seq 0 11).

(** ** The life cycle of the service ([BlockchainService]) *)

Module Service.
(** The fields of the service object, and the number of timers it has
    registered with [setInterval]: the source never clears one. *)
Record t : Type := mk {
  providers : list ChainKey;
  isInitialized : bool;
  intervals : nat
}.

Definition initial : t := mk [] false 0.
End Service.

(** The service object and the store. *)
Definition World : Type := (Service.t * GasState.t)%type.

Definition chainKeyEqb (a b : ChainKey) : bool :=
  match a, b with
  | Ethereum, Ethereum | Polygon, Polygon | Arbitrum, Arbitrum => true
  | _, _ => false
  end.

(** [this.providers.has(chainName)] *)
Definition hasProvider (chainName : ChainKey) (svc : Service.t) : bool :=
  existsb (chainKeyEqb chainName) (Service.providers svc).

(** [this.providers.set(chainName, provider)] *)
Definition addProvider (chainName : ChainKey) (svc : Service.t)
    : Service.t :=
  if hasProvider chainName svc then svc
  else
    Service.mk (Service.providers svc ++ [chainName])
      (Service.isInitialized svc) (Service.intervals svc).

(** [setInterval(...)] *)
Definition addInterval (svc : Service.t) : Service.t :=
  Service.mk (Service.providers svc) (Service.isInitialized svc)
    (S (Service.intervals svc)).

Definition markInitialized (svc : Service.t) : Service.t :=
  Service.mk (Service.providers svc) true (Service.intervals svc).

(** [disconnect()]: listeners removed, providers destroyed and cleared,
    flag reset.  The store and the timers are not touched. *)
Definition disconnect (w : World) : World :=
  let (svc, s) := w in
  (Service.mk [] false (Service.intervals svc), s).

(** The first revision of the service: live connections. *)
Module Live.

(** What [slot0()] answers once a provider exists. *)
Inductive Slot0Result : Type :=
| Slot0Fails (message : string)
| Slot0Answers (price : Q).

(** What [initialize] meets: the outcome and the clock of each
    connection attempt, and the answer of the price pool. *)
Record Inputs : Type := mkInputs {
  connects : ChainKey -> bool;
  connectTime : ChainKey -> Z;
  slot0 : Slot0Result
}.

(** [setupProvider(chainName, rpcUrl)] on the service and the store: a
    failed attempt is caught and recorded. *)
Definition connect (inputs : Inputs) (chainName : ChainKey) (w : World)
    : World :=
  let (svc, s) := w in
  let connected := connects inputs chainName in
  ((if connected then addProvider chainName svc else svc),
   setupProvider (connectTime inputs chainName) chainName connected s).

(** What [updateEthPrice] meets, given the providers of the service. *)
Definition oracleOutcome (inputs : Inputs) (svc : Service.t)
    : OracleOutcome :=
  if hasProvider Ethereum svc then
    match slot0 inputs with
    | Slot0Fails message => Slot0Throws message
    | Slot0Answers price => Slot0Price price
    end
  else NoProvider.

(** [initialize()].  Nothing inside its [try] block throws: the
    connection attempts and the price update catch their own errors. *)
Definition initialize (inputs : Inputs) (w : World) : World :=
  let (svc, s) := w in
  if Service.isInitialized svc then w
  else
    let w1 := connect inputs Ethereum (svc, s) in
    let w2 := connect inputs Polygon w1 in
    let (svc3, s3) := connect inputs Arbitrum w2 in
    let s4 :=
      match updateEthPrice (oracleOutcome inputs svc3) s3 with
      | Returned s' => s'
      | Threw _ => s3
      end in
    let svc5 := markInitialized (addInterval svc3) in
    (svc5, setError None (setLoading false s4)).
End Live.

(** The second revision of the service: simulated data. *)
Module Demo.

Record Inputs : Type := mkInputs {
  now1 : Z;
  now2 : Z;
  now3 : Z;
  draws : TickDraws
}.

Definition initialize (inputs : Inputs) (w : World) : World :=
  let (svc, s) := w in
  if Service.isInitialized svc then w
  else
    let s1 :=
      setupDemoData (now1 inputs) (now2 inputs) (now3 inputs)
        (draws inputs) s in
    let svc2 := markInitialized (addInterval svc) in
    (svc2, setError None (setLoading false s1)).
End Demo.

(** The store of [setupDemoData] before its call of
    [updateSimulatedData]: three chains marked connected, the initial
    exchange rate set. *)
Definition demoConnected (now1 now2 now3 : Z) (s : GasState.t)
    : GasState.t :=
  setEthUsdPrice 2347.82
    (setupProvider now3 Arbitrum true
       (setupProvider now2 Polygon true
          (setupProvider now1 Ethereum true s))).

(** Connection outcomes: every chain, no chain. *)
Definition allConnect : Live.Inputs :=
  Live.mkInputs (fun _ => true) (fun _ => 1000) (Live.Slot0Answers 2500).


Definition sampleDemoInputs (now : Z) : Demo.Inputs :=
  Demo.mkInputs now now now (sampleDraws now).

(** * Properties *)

(** ** Reading a chain record after a write *)

Lemma Chains_get_set_same (chain : ChainKey) (c : ChainData.t)
    (cs : Chains.t) :
  Chains.get chain (Chains.set chain c cs) = c.
Proof. destruct chain; reflexivity. Qed.

Lemma Chains_get_set_other (chain other : ChainKey) (c : ChainData.t)
    (cs : Chains.t) :
  chain <> other ->
  Chains.get other (Chains.set chain c cs) = Chains.get other cs.
Proof. destruct chain, other; intros H; try reflexivity; congruence. Qed.

Lemma ChainKey_eq_dec (a b : ChainKey) : {a = b} + {a <> b}.
Proof. decide equality. Defined.

Lemma historyOf_addGasPoint_same (chain : ChainKey) (point : GasPoint.t)
    (s : GasState.t) :
  historyOf chain (addGasPoint chain point s)
  = slice_last 100 (historyOf chain s ++ [point]).
Proof.
  unfold historyOf, addGasPoint; cbn.
  rewrite Chains_get_set_same. reflexivity.
Qed.

Lemma historyOf_addGasPoint_other (chain other : ChainKey)
    (point : GasPoint.t) (s : GasState.t) :
  chain <> other ->
  historyOf other (addGasPoint chain point s) = historyOf other s.
Proof.
  intros H. unfold historyOf, addGasPoint; cbn.
  rewrite Chains_get_set_other by assumption. reflexivity.
Qed.

(** ** [slice(-n)] *)

Arguments slice_last : simpl never.

Lemma slice_last_length {A : Type} (n : nat) (l : list A) :
  List.length (slice_last n l) = Nat.min n (List.length l).
Proof. unfold slice_last. rewrite length_skipn. lia. Qed.

Lemma slice_last_short {A : Type} (n : nat) (l : list A) :
  (List.length l <= n)%nat -> slice_last n l = l.
Proof.
  intros H. unfold slice_last.
  replace (List.length l - n)%nat with 0%nat by lia. reflexivity.
Qed.

(** Trimming before appending does not change what a later trim keeps. *)
Lemma slice_last_app_absorb {A : Type} (n : nat) (l m : list A) :
  slice_last n (slice_last n l ++ m) = slice_last n (l ++ m).
Proof.
  destruct (Nat.le_gt_cases (List.length l) n) as [Hle | Hgt].
  - rewrite (slice_last_short n l) by assumption. reflexivity.
  - unfold slice_last at 1 3.
    rewrite !length_app, slice_last_length.
    unfold slice_last.
    rewrite !skipn_app, length_skipn, skipn_skipn.
    f_equal.
    + f_equal. lia.
    + f_equal. lia.
Qed.

(** Once at least [n] elements were appended, nothing older remains. *)
Lemma slice_last_app_long {A : Type} (n : nat) (l m : list A) :
  (n <= List.length m)%nat -> slice_last n (l ++ m) = slice_last n m.
Proof.
  intros H. unfold slice_last.
  rewrite length_app, skipn_app.
  rewrite skipn_all2 by lia. cbn [app].
  f_equal. lia.
Qed.

(** ** Repeated [addGasPoint] *)

Lemma historyOf_addGasPoints (chain : ChainKey) (points : list GasPoint.t) :
  forall s : GasState.t,
    historyOf chain (addGasPoints chain points s)
    = match points with
      | [] => historyOf chain s
      | _ :: _ => slice_last 100 (historyOf chain s ++ points)
      end.
Proof.
  induction points as [| p rest IH]; intros s.
  - reflexivity.
  - cbn [addGasPoints fold_left].
    change (fold_left (fun s0 point => addGasPoint chain point s0) rest
              (addGasPoint chain p s))
      with (addGasPoints chain rest (addGasPoint chain p s)).
    rewrite IH, historyOf_addGasPoint_same.
    destruct rest as [| q rest'].
    + reflexivity.
    + rewrite slice_last_app_absorb, <- app_assoc. reflexivity.
Qed.

Lemma historyOf_addGasPoints_bounded (chain : ChainKey)
    (points : list GasPoint.t) (s : GasState.t) :
  (List.length (historyOf chain s) <= 100)%nat ->
  historyOf chain (addGasPoints chain points s)
  = slice_last 100 (historyOf chain s ++ points).
Proof.
  intros H. rewrite historyOf_addGasPoints.
  destruct points as [| p rest].
  - rewrite app_nil_r, slice_last_short by assumption. reflexivity.
  - reflexivity.
Qed.

(** C2. For every chain and every sequence of [addGasPoint] calls on it:
    a history of at most 100 points keeps at most 100 points and is the
    last 100 of the old history followed by the appended points, in
    arrival order; after more than 100 appends it has exactly 100 points
    and is the last 100 appended points, in arrival order. *)
Theorem addGasPoint_history_bounded_fifo (chain : ChainKey)
    (points : list GasPoint.t) (s : GasState.t) :
  let after := historyOf chain (addGasPoints chain points s) in
  ((List.length (historyOf chain s) <= 100)%nat ->
   (List.length after <= 100)%nat
   /\ after = slice_last 100 (historyOf chain s ++ points))
  /\ ((100 < List.length points)%nat ->
      List.length after = 100%nat
      /\ after = skipn (List.length points - 100) points).
Proof.
  cbv zeta. split.
  - intros H. rewrite historyOf_addGasPoints_bounded by assumption.
    split; [| reflexivity].
    rewrite slice_last_length. lia.
  - intros H. rewrite historyOf_addGasPoints.
    destruct points as [| p rest]; [cbn in H; lia |].
    rewrite slice_last_app_long by lia.
    split; [| reflexivity].
    rewrite slice_last_length. lia.
Qed.

Lemma addGasPoint_history_bounded_fifo_witness :
  let after := historyOf Ethereum
                 (addGasPoints Ethereum samplePoints initialState) in
  ((List.length after <= 100)%nat
   /\ after = slice_last 100 (historyOf Ethereum initialState ++ samplePoints))
  /\ (List.length after = 100%nat
      /\ after = skipn (List.length samplePoints - 100) samplePoints).
Proof.
  destruct
    (addGasPoint_history_bounded_fifo Ethereum samplePoints initialState)
    as [Hbounded Hfull].
  split.
  - apply Hbounded. vm_compute. lia.
  - apply Hfull. vm_compute. lia.
Defined.

(** ** Transaction cost *)

(** C1. On every chain the estimator returns
    [gasCostETH = (baseFee + priorityFee) * gasLimit / 10^9],
    [gasCostUSD = gasCostETH * ethUsdPrice],
    [totalCostETH = gasCostETH + amount] and
    [totalCostUSD = totalCostETH * ethUsdPrice], where the sum of the two
    fees is the record's [gasPrice] whenever the record has
    [gasPrice = baseFee + priorityFee]; with [baseFee = 10],
    [priorityFee = 2], [ethUsdPrice = 2000], [gasLimit = 21000] and
    [amount = 0.5] these are 0.000252, 0.504, 0.500252 and 1000.504. *)
Theorem calculateTransactionCost_scenario (chain : ChainKey)
    (s : GasState.t) (gasLimit amount : Q) :
  let chainData := Chains.get chain (GasState.chains s) in
  let currentGasPrice :=
    (ChainData.baseFee chainData + ChainData.priorityFee chainData)%Q in
  let r := calculateTransactionCost s chain gasLimit amount in
  ((Cost.gasCostETH r == (currentGasPrice * gasLimit) / 1e9)
   /\ (Cost.gasCostUSD r == Cost.gasCostETH r * GasState.ethUsdPrice s)
   /\ (Cost.totalCostETH r == Cost.gasCostETH r + amount)
   /\ (Cost.totalCostUSD r == Cost.totalCostETH r * GasState.ethUsdPrice s))%Q
  /\ (gasPriceIsSum chainData ->
      (Cost.gasCostETH r == (ChainData.gasPrice chainData * gasLimit) / 1e9)%Q)
  /\ ((ChainData.baseFee chainData == 10)%Q ->
      (ChainData.priorityFee chainData == 2)%Q ->
      (GasState.ethUsdPrice s == 2000)%Q ->
      (gasLimit == 21000)%Q ->
      (amount == 0.5)%Q ->
      (Cost.gasCostETH r == 0.000252 /\ Cost.gasCostUSD r == 0.504
       /\ Cost.totalCostETH r == 0.500252
       /\ Cost.totalCostUSD r == 1000.504)%Q).
Proof.
  cbv zeta. unfold calculateTransactionCost. cbn [Cost.gasCostETH
    Cost.gasCostUSD Cost.totalCostETH Cost.totalCostUSD].
  split; [| split].
  - split; [| split; [| split]]; reflexivity.
  - unfold gasPriceIsSum. intros ->. reflexivity.
  - intros Hbase Hprio Hprice Hlimit Hamount.
    rewrite Hbase, Hprio, Hprice, Hlimit, Hamount.
    split; [| split; [| split]]; vm_compute; reflexivity.
Qed.

Lemma calculateTransactionCost_scenario_witness :
  let r := calculateTransactionCost (scenarioBState Ethereum) Ethereum
             21000 0.5 in
  (Cost.gasCostETH r == 0.000252 /\ Cost.gasCostUSD r == 0.504
   /\ Cost.totalCostETH r == 0.500252 /\ Cost.totalCostUSD r == 1000.504)%Q.
Proof.
  apply (calculateTransactionCost_scenario Ethereum
           (scenarioBState Ethereum) 21000 0.5);
    vm_compute; reflexivity.
Defined.

#[local] Set Warnings "-inexact-float".

(** Scenario B on doubles: the four results are the doubles nearest to
    0.000252, 0.504, 0.500252 and 1000.504. *)
Example binary64_scenarioB_replay :
  Binary64.calculateTransactionCost 10 2 2000 21000 0.5
  = (0.000252, 0.504, 0.500252, 1000.504)%float.
Proof. vm_compute. reflexivity. Qed.

#[local] Set Warnings "+inexact-float".



(** The same on doubles, where a product with 0 is 0 only for a finite
    factor: a finite double is a signed zero or a finite non-zero value. *)
Lemma finite_double_cases (x : float) :
  is_finite x = true ->
  match Prim2SF x with
  | S754_zero _ | S754_finite _ _ _ => True
  | S754_infinity _ | S754_nan => False
  end.
Proof.
  unfold is_finite, is_nan, is_infinity.
  rewrite !FloatAxioms.eqb_spec, FloatAxioms.abs_spec.
  destruct (Prim2SF x) as [sign | sign | | sign m e]; cbn;
    try exact (fun _ => I).
  - destruct sign; cbn; discriminate.
  - discriminate.
Qed.

Lemma finite_double_times_zero (x : float) :
  is_finite x = true -> (x * 0 =? 0)%float = true.
Proof.
  intros H. apply finite_double_cases in H.
  rewrite FloatAxioms.eqb_spec, FloatAxioms.mul_spec.
  destruct (Prim2SF x) as [sign | sign | | sign m e]; try contradiction.
  - destruct sign; vm_compute; reflexivity.
  - destruct sign; reflexivity.
Qed.

(** With [ethUsdPrice = 0] on doubles, each fiat result compares equal to
    0 as soon as the native result it is computed from is finite. *)
Lemma binary64_unknown_price_finite
    (baseFee priorityFee gasLimit amount : float) :
  let '(gasCostETH, gasCostUSD, totalCostETH, totalCostUSD) :=
    Binary64.calculateTransactionCost baseFee priorityFee 0 gasLimit amount in
  (is_finite gasCostETH = true -> (gasCostUSD =? 0)%float = true)
  /\ (is_finite totalCostETH = true -> (totalCostUSD =? 0)%float = true).
Proof.
  unfold Binary64.calculateTransactionCost.
  split; apply finite_double_times_zero.
Qed.

(** ** Chain records after the two store actions *)

Lemma chainOf_updateChainData_same (now : Z) (chain : ChainKey)
    (data : ChainData.partial) (s : GasState.t) :
  chainOf chain (updateChainData now chain data s)
  = ChainData.with_lastUpdate now (ChainData.spread (chainOf chain s) data).
Proof.
  unfold chainOf, updateChainData; cbn.
  apply Chains_get_set_same.
Qed.

Lemma chainOf_updateChainData_other (now : Z) (chain other : ChainKey)
    (data : ChainData.partial) (s : GasState.t) :
  chain <> other ->
  chainOf other (updateChainData now chain data s) = chainOf other s.
Proof.
  intros H. unfold chainOf, updateChainData; cbn.
  apply Chains_get_set_other; assumption.
Qed.

Lemma chainOf_addGasPoint_same (chain : ChainKey) (point : GasPoint.t)
    (s : GasState.t) :
  chainOf chain (addGasPoint chain point s)
  = ChainData.with_history
      (slice_last 100 (ChainData.history (chainOf chain s) ++ [point]))
      (chainOf chain s).
Proof.
  unfold chainOf, addGasPoint; cbn.
  apply Chains_get_set_same.
Qed.

Lemma chainOf_addGasPoint_other (chain other : ChainKey)
    (point : GasPoint.t) (s : GasState.t) :
  chain <> other ->
  chainOf other (addGasPoint chain point s) = chainOf other s.
Proof.
  intros H. unfold chainOf, addGasPoint; cbn.
  apply Chains_get_set_other; assumption.
Qed.

Lemma Forall_slice_last {A : Type} (P : A -> Prop) (n : nat) (l : list A) :
  Forall P l -> Forall P (slice_last n l).
Proof.
  unfold slice_last. generalize (List.length l - n)%nat as k.
  intros k H. revert k.
  induction H as [| x l Hx Hl IH]; intros [| k]; cbn; auto.
Qed.

(** ** The invariant of the store *)

Lemma storeInvariant_initialState : storeInvariant initialState.
Proof.
  intros chain. unfold chainInvariant, gasPriceIsSum.
  destruct chain; cbn; (split; [reflexivity | split; [lia | constructor]]).
Qed.

(** The pattern shared by [handleNewBlock] and [updateSimulatedData]:
    publish the fees of a point, then append the point. *)
Lemma storeInvariant_ingest (now blockNumber : Z) (chain : ChainKey)
    (gasPoint : GasPoint.t) (s : GasState.t) :
  wellFormedPoint gasPoint ->
  storeInvariant s ->
  storeInvariant
    (addGasPoint chain gasPoint
       (updateChainData now chain (feeUpdate gasPoint blockNumber) s)).
Proof.
  intros Hwf Hinv other.
  destruct (ChainKey_eq_dec chain other) as [<- | Hneq].
  - rewrite chainOf_addGasPoint_same, chainOf_updateChainData_same.
    destruct (Hinv chain) as (_ & Hlen & Hall).
    unfold chainInvariant, gasPriceIsSum; cbn.
    split; [apply Hwf | split].
    + rewrite slice_last_length. lia.
    + apply Forall_slice_last, Forall_app. split; [assumption |].
      constructor; [assumption | constructor].
  - rewrite chainOf_addGasPoint_other, chainOf_updateChainData_other
      by assumption.
    apply Hinv.
Qed.

Lemma storeInvariant_setupProvider (now : Z) (chain : ChainKey)
    (connected : bool) (s : GasState.t) :
  storeInvariant s -> storeInvariant (setupProvider now chain connected s).
Proof.
  intros Hinv other. unfold setupProvider.
  destruct (ChainKey_eq_dec chain other) as [<- | Hneq].
  - rewrite chainOf_updateChainData_same. apply (Hinv chain).
  - rewrite chainOf_updateChainData_other by assumption. apply Hinv.
Qed.

(** ** Points built by the service *)

Lemma gweiOfWei_nonneg (wei : Z) : 0 <= wei -> (0 <= gweiOfWei wei)%Q.
Proof.
  intros H. unfold gweiOfWei, Qdiv.
  apply Qmult_le_0_compat.
  - rewrite Zle_Qle in H. exact H.
  - vm_compute. discriminate.
Qed.

Lemma truthy_unsigned (v : option Z) (wei : Z) :
  unsignedWei v -> truthy v = Some wei -> 0 <= wei.
Proof.
  destruct v as [n |]; cbn; [| discriminate].
  destruct (n =? 0); [discriminate |].
  intros H [= <-]. exact H.
Qed.

Lemma blockFees_nonneg (chainName : ChainKey) (block : Block)
    (getFeeData : FeeDataResult) :
  unsignedWei (baseFeePerGas block) ->
  validFeeData getFeeData ->
  (0 <= fst (blockFees chainName block getFeeData)
   /\ 0 <= snd (blockFees chainName block getFeeData))%Q.
Proof.
  intros Hblock Hfee.
  assert (Hbase : (0 <= match truthy (baseFeePerGas block) with
                        | Some wei => gweiOfWei wei
                        | None => 0
                        end)%Q).
  { destruct (truthy (baseFeePerGas block)) as [wei |] eqn:E.
    - apply gweiOfWei_nonneg, (truthy_unsigned _ _ Hblock E).
    - apply Qle_refl. }
  assert (Hgas : forall gasPrice wei, unsignedWei gasPrice ->
                   truthy gasPrice = Some wei ->
                   (0 <= gweiOfWei wei * 0.8 /\ 0 <= gweiOfWei wei * 0.2)%Q).
  { intros gasPrice wei Hu E.
    pose proof (gweiOfWei_nonneg wei (truthy_unsigned _ _ Hu E)).
    split; lra. }
  unfold blockFees; cbv zeta.
  destruct chainName;
    try (cbn [fst snd]; split; [exact Hbase | lra]);
    (destruct getFeeData as [| gasPrice];
       [cbn [fst snd]; split; [exact Hbase | lra] |]);
    (destruct (truthy gasPrice) as [wei |] eqn:E; cbn [fst snd];
       [apply (Hgas gasPrice wei Hfee E) | split; [exact Hbase | lra]]).
Qed.

Lemma wellFormedPoint_blockGasPoint (now : Z) (store : GasState.t)
    (chainName : ChainKey) (block : Block) (getFeeData : FeeDataResult) :
  unsignedWei (baseFeePerGas block) ->
  validFeeData getFeeData ->
  wellFormedPoint
    (blockGasPoint now store (blockFees chainName block getFeeData)).
Proof.
  intros Hblock Hfee.
  destruct (blockFees_nonneg chainName block getFeeData Hblock Hfee)
    as [Hb Hp].
  unfold blockGasPoint.
  destruct (blockFees chainName block getFeeData) as [baseFee priorityFee].
  cbn [fst snd] in Hb, Hp.
  unfold wellFormedPoint, feeConsistent, feesNonNegative; cbn.
  split; [reflexivity |]. split; [| split]; lra.
Qed.

Lemma wellFormedPoint_simulatedGasPoint (store : GasState.t)
    (chainName : ChainKey) (d : ChainDraw) :
  validDraw d ->
  wellFormedPoint (simulatedGasPoint store chainName d).
Proof.
  intros [[Hb0 Hb1] [Hp0 Hp1]].
  unfold wellFormedPoint, feeConsistent, feesNonNegative, simulatedGasPoint.
  cbn [GasPoint.baseFee GasPoint.priorityFee GasPoint.totalFee].
  destruct chainName; cbn [baseGasPrices base priority variance];
    rewrite !Q.max_r by lra;
    (split; [reflexivity | split; [| split]; lra]).
Qed.

(** ** The invariant along a run *)

Lemma storeInvariant_handleNewBlock (chainName : ChainKey)
    (blockNumber : Z) (getBlock : GetBlockResult)
    (getFeeData : FeeDataResult) (nowPoint nowUpdate : Z)
    (s : GasState.t) :
  validBlock getBlock ->
  validFeeData getFeeData ->
  storeInvariant s ->
  storeInvariant
    (handleNewBlock chainName blockNumber getBlock getFeeData
       nowPoint nowUpdate s).
Proof.
  intros Hblock Hfee Hinv.
  destruct getBlock as [| [block |]]; cbn [handleNewBlock]; try assumption.
  apply (storeInvariant_ingest nowUpdate blockNumber chainName
           (blockGasPoint nowPoint s (blockFees chainName block getFeeData))).
  - apply wellFormedPoint_blockGasPoint; assumption.
  - assumption.
Qed.

Lemma storeInvariant_simulateChain (store : GasState.t)
    (chainName : ChainKey) (d : ChainDraw) (s : GasState.t) :
  validDraw d ->
  storeInvariant s ->
  storeInvariant (simulateChain store chainName d s).
Proof.
  intros Hd Hinv.
  apply (storeInvariant_ingest (nowUpdate d) (nowBlock d / 6000) chainName
           (simulatedGasPoint store chainName d)).
  - apply wellFormedPoint_simulatedGasPoint; assumption.
  - assumption.
Qed.

Lemma storeInvariant_setEthUsdPrice (price : Q) (s : GasState.t) :
  storeInvariant s -> storeInvariant (setEthUsdPrice price s).
Proof. intros Hinv chain. exact (Hinv chain). Qed.

Lemma storeInvariant_updateSimulatedData (draws : TickDraws)
    (s : GasState.t) :
  validDraws draws ->
  storeInvariant s ->
  storeInvariant (updateSimulatedData draws s).
Proof.
  intros (He & Hp & Ha & _) Hinv. unfold updateSimulatedData.
  apply storeInvariant_setEthUsdPrice.
  repeat (apply storeInvariant_simulateChain; [assumption |]).
  assumption.
Qed.

Lemma storeInvariant_setupDemoData (now1 now2 now3 : Z)
    (draws : TickDraws) (s : GasState.t) :
  validDraws draws ->
  storeInvariant s ->
  storeInvariant (setupDemoData now1 now2 now3 draws s).
Proof.
  intros Hd Hinv. unfold setupDemoData.
  apply storeInvariant_updateSimulatedData; [assumption |].
  apply storeInvariant_setEthUsdPrice.
  apply (storeInvariant_setupProvider now3 Arbitrum true).
  apply (storeInvariant_setupProvider now2 Polygon true).
  apply (storeInvariant_setupProvider now1 Ethereum true).
  assumption.
Qed.

Lemma updateEthPrice_chains (outcome : OracleOutcome) (s : GasState.t) :
  exists s' : GasState.t,
    updateEthPrice outcome s = Returned s'
    /\ GasState.chains s' = GasState.chains s.
Proof.
  destruct outcome as [| message | price]; cbn.
  - exists s. split; reflexivity.
  - destruct (Qeq_bool (GasState.ethUsdPrice s) 0).
    + exists (setEthUsdPrice 2000 s). split; reflexivity.
    + exists s. split; reflexivity.
  - exists (setEthUsdPrice price s). split; reflexivity.
Qed.

Lemma storeInvariant_step (ev : Event) (s : GasState.t) :
  validEvent ev -> storeInvariant s -> storeInvariant (step ev s).
Proof.
  intros Hvalid Hinv.
  destruct ev; cbn [step validEvent] in *.
  - apply storeInvariant_setupProvider; assumption.
  - destruct Hvalid. apply storeInvariant_handleNewBlock; assumption.
  - destruct (updateEthPrice_chains outcome s) as (s' & -> & Hchains).
    intros chain. unfold chainOf. rewrite Hchains. apply Hinv.
  - apply storeInvariant_setupDemoData; assumption.
  - apply storeInvariant_updateSimulatedData; assumption.
  - exact Hinv.
  - exact Hinv.
  - exact Hinv.
  - exact Hinv.
  - exact Hinv.
Qed.

Lemma storeInvariant_run (evs : list Event) :
  forall s : GasState.t,
    Forall validEvent evs -> storeInvariant s -> storeInvariant (run evs s).
Proof.
  induction evs as [| ev rest IH]; intros s Hvalid Hinv.
  - exact Hinv.
  - inversion Hvalid as [| ? ? Hev Hrest]; subst.
    cbn [run fold_left]. apply IH; [assumption |].
    apply storeInvariant_step; assumption.
Qed.

(** ** The current gas price *)

(** C3, as stated, fails: [updateChainData] does not recompute
    [gasPrice].  Passing only [baseFee = 10] to the initial store leaves
    [gasPrice = 0] next to [baseFee = 10] and [priorityFee = 0]. *)
Lemma updateChainData_gasPrice_not_recomputed :
  ~ gasPriceIsSum
      (chainOf Ethereum
         (updateChainData 1000 Ethereum (onlyBaseFee 10) initialState)).
Proof. intros H. vm_compute in H. discriminate H. Qed.

(** C3, amended. [updateChainData] stores the [gasPrice] it is given and
    keeps the old one when it is given none; it never computes it.  The
    callers pass the three fee fields together: after [handleNewBlock]
    has processed a block, and in every state of a run from the initial
    store, [gasPrice = baseFee + priorityFee] on every chain. *)
Theorem gasPrice_supplied_by_callers (evs : list Event) (now : Z)
    (chain : ChainKey) (data : ChainData.partial) (s : GasState.t)
    (blockNumber : Z) (block : Block) (getFeeData : FeeDataResult)
    (nowPoint : Z) :
  Forall validEvent evs ->
  ChainData.gasPrice (chainOf chain (updateChainData now chain data s))
  = ChainData.pick (ChainData.gasPrice (chainOf chain s))
      (ChainData.gasPrice' data)
  /\ gasPriceIsSum
       (chainOf chain
          (handleNewBlock chain blockNumber (GetBlockReturns (Some block))
             getFeeData nowPoint now s))
  /\ (forall c : ChainKey, gasPriceIsSum (chainOf c (run evs initialState))).
Proof.
  intros Hvalid. split; [| split].
  - rewrite chainOf_updateChainData_same. reflexivity.
  - cbn [handleNewBlock].
    rewrite chainOf_addGasPoint_same, chainOf_updateChainData_same.
    unfold gasPriceIsSum, blockGasPoint.
    destruct (blockFees chain block getFeeData) as [baseFee priorityFee].
    cbn. reflexivity.
  - intros c.
    apply (storeInvariant_run evs initialState Hvalid
             storeInvariant_initialState c).
Qed.

Lemma validDraws_sampleDraws (now : Z) : validDraws (sampleDraws now).
Proof. unfold validDraws, validDraw, unitInterval; cbn. repeat split; lra. Qed.

Lemma sampleRun_valid : Forall validEvent sampleRun.
Proof.
  unfold sampleRun.
  repeat (apply Forall_cons || apply Forall_nil); cbn [validEvent].
  - apply validDraws_sampleDraws.
  - apply validDraws_sampleDraws.
  - cbn. split; lia.
  - exact I.
Qed.

Lemma gasPrice_supplied_by_callers_witness :
  ChainData.gasPrice
    (chainOf Polygon (updateChainData 5 Polygon (onlyBaseFee 10) initialState))
  = ChainData.pick (ChainData.gasPrice (chainOf Polygon initialState))
      (ChainData.gasPrice' (onlyBaseFee 10))
  /\ gasPriceIsSum
       (chainOf Polygon
          (handleNewBlock Polygon 17 (GetBlockReturns (Some sampleBlock))
             FeeDataThrows 4 5 initialState))
  /\ (forall c : ChainKey,
        gasPriceIsSum (chainOf c (run sampleRun initialState))).
Proof.
  exact (gasPrice_supplied_by_callers sampleRun 5 Polygon (onlyBaseFee 10)
           initialState 17 sampleBlock FeeDataThrows 4 sampleRun_valid).
Defined.

(** ** Points appended to a history *)

(** C6. Every point built by [handleNewBlock] from unsigned chain data,
    and every point built by [updateSimulatedData] from draws in
    [[0, 1)], has [totalFee = baseFee + priorityFee] and three
    non-negative fees; so has every point of every history in a run from
    the initial store. *)
Theorem appended_points_well_formed (evs : list Event)
    (store : GasState.t) (chainName : ChainKey) (now : Z)
    (block : Block) (getFeeData : FeeDataResult) (d : ChainDraw) :
  unsignedWei (baseFeePerGas block) ->
  validFeeData getFeeData ->
  validDraw d ->
  Forall validEvent evs ->
  wellFormedPoint
    (blockGasPoint now store (blockFees chainName block getFeeData))
  /\ wellFormedPoint (simulatedGasPoint store chainName d)
  /\ (forall c : ChainKey,
        Forall wellFormedPoint (historyOf c (run evs initialState))).
Proof.
  intros Hblock Hfee Hdraw Hvalid. split; [| split].
  - apply wellFormedPoint_blockGasPoint; assumption.
  - apply wellFormedPoint_simulatedGasPoint; assumption.
  - intros c.
    apply (storeInvariant_run evs initialState Hvalid
             storeInvariant_initialState c).
Qed.

Lemma appended_points_well_formed_witness :
  wellFormedPoint
    (blockGasPoint 8000 initialState
       (blockFees Arbitrum sampleBlock (FeeDataReturns (Some 50000000000))))
  /\ wellFormedPoint (simulatedGasPoint initialState Arbitrum (sampleDraw 9))
  /\ (forall c : ChainKey,
        Forall wellFormedPoint (historyOf c (run sampleRun initialState))).
Proof.
  apply (appended_points_well_formed sampleRun initialState Arbitrum 8000
           sampleBlock (FeeDataReturns (Some 50000000000)) (sampleDraw 9)).
  - cbn. lia.
  - cbn. lia.
  - unfold validDraw, unitInterval; cbn. repeat split; lra.
  - exact sampleRun_valid.
Defined.

(** ** The time stamp of a chain record *)



(** ** A failed price update *)



(** ** The gas limit of the simulation *)

Example parseInt_decimal : parseInt "21000" = Some 21000.
Proof. reflexivity. Qed.

Example parseInt_stops_at_first_non_digit : parseInt "  42.7px" = Some 42.
Proof. reflexivity. Qed.

Example parseInt_hexadecimal : parseInt "0x10" = Some 16.
Proof. reflexivity. Qed.

Example parseInt_negative : parseInt "-5" = Some (-5).
Proof. reflexivity. Qed.

Example parseInt_not_a_number : parseInt "" = None /\ parseInt "abc" = None.
Proof. split; reflexivity. Qed.




(** ** Sums and means *)

Lemma sumFees_from (l : list GasPoint.t) :
  forall acc : FeeSum.t,
    let r :=
      fold_left
        (fun acc point =>
           FeeSum.mk
             (FeeSum.baseFee acc + GasPoint.baseFee point)%Q
             (FeeSum.priorityFee acc + GasPoint.priorityFee point)%Q
             (FeeSum.totalFee acc + GasPoint.totalFee point)%Q)
        l acc in
    (FeeSum.baseFee r
     == FeeSum.baseFee acc + Qsum (map GasPoint.baseFee l)
     /\ FeeSum.priorityFee r
        == FeeSum.priorityFee acc + Qsum (map GasPoint.priorityFee l)
     /\ FeeSum.totalFee r
        == FeeSum.totalFee acc + Qsum (map GasPoint.totalFee l))%Q.
Proof.
  induction l as [| p rest IH]; intros acc; cbn [fold_left map Qsum fold_right].
  - cbv zeta. split; [| split]; lra.
  - specialize (IH (FeeSum.mk
                      (FeeSum.baseFee acc + GasPoint.baseFee p)%Q
                      (FeeSum.priorityFee acc + GasPoint.priorityFee p)%Q
                      (FeeSum.totalFee acc + GasPoint.totalFee p)%Q)).
    cbv zeta in IH |- *. cbn [FeeSum.baseFee FeeSum.priorityFee
      FeeSum.totalFee] in IH.
    destruct IH as (Hb & Hp & Ht).
    fold (Qsum (map GasPoint.baseFee rest)).
    fold (Qsum (map GasPoint.priorityFee rest)).
    fold (Qsum (map GasPoint.totalFee rest)).
    rewrite Hb, Hp, Ht. split; [| split]; ring.
Qed.

(** The fee fields of the point pushed for a bucket are the arithmetic
    means of the corresponding fields of its raw points. *)
Lemma averagePoint_means (time : Z) (intervalPoints : list GasPoint.t) :
  GasPoint.timestamp (averagePoint time intervalPoints) = time
  /\ (GasPoint.baseFee (averagePoint time intervalPoints)
      == mean (map GasPoint.baseFee intervalPoints)
      /\ GasPoint.priorityFee (averagePoint time intervalPoints)
         == mean (map GasPoint.priorityFee intervalPoints)
      /\ GasPoint.totalFee (averagePoint time intervalPoints)
         == mean (map GasPoint.totalFee intervalPoints))%Q.
Proof.
  split; [reflexivity |].
  unfold averagePoint, mean, sumFees, lengthQ.
  cbn [GasPoint.baseFee GasPoint.priorityFee GasPoint.totalFee].
  rewrite !length_map.
  destruct (sumFees_from intervalPoints (FeeSum.mk 0 0 0)) as (Hb & Hp & Ht).
  cbn [FeeSum.baseFee FeeSum.priorityFee FeeSum.totalFee] in Hb, Hp, Ht.
  rewrite Hb, Hp, Ht, !Qplus_0_l. split; [| split]; reflexivity.
Qed.

Lemma Qsum_feeConsistent (l : list GasPoint.t) :
  Forall feeConsistent l ->
  (Qsum (map GasPoint.totalFee l)
   == Qsum (map (fun p => GasPoint.baseFee p + GasPoint.priorityFee p) l))%Q.
Proof.
  induction 1 as [| p rest Hp Hrest IH]; cbn [map Qsum fold_right].
  - reflexivity.
  - fold (Qsum (map GasPoint.totalFee rest)).
    fold (Qsum (map (fun p => GasPoint.baseFee p + GasPoint.priorityFee p)%Q
                  rest)).
    unfold feeConsistent in Hp. rewrite IH, Hp. reflexivity.
Qed.

(** ** The aggregation loop *)

Lemma push_if_nonempty (time : Z)
    (intervalPoints aggregated : list GasPoint.t) :
  (if (0 <? List.length intervalPoints)%nat
   then aggregated ++ [averagePoint time intervalPoints]
   else aggregated)
  = aggregated
    ++ match intervalPoints with
       | [] => []
       | _ :: _ => [averagePoint time intervalPoints]
       end.
Proof.
  destruct intervalPoints; cbn [List.length Nat.ltb Nat.leb].
  - rewrite app_nil_r. reflexivity.
  - reflexivity.
Qed.

(** With [n] iterations left and more than [n] units of fuel, the loop
    returns what it had plus one point per non-empty bucket, in order. *)
Lemma aggregateFrom_spec (filteredHistory : list GasPoint.t)
    (interval now : Z) :
  0 < interval ->
  forall (n : nat) (time : Z) (aggregated : list GasPoint.t) (fuel : nat),
    time + (Z.of_nat n - 1) * interval <= now < time + Z.of_nat n * interval ->
    (n < fuel)%nat ->
    aggregateFrom fuel filteredHistory interval now time aggregated
    = Some (aggregated
            ++ flat_map (bucketPoint filteredHistory interval)
                 (map (fun k => time + Z.of_nat k * interval) (seq 0 n))).
Proof.
  intros Hpos.
  induction n as [| n IH]; intros time aggregated fuel Hrange Hfuel;
    (destruct fuel as [| fuel]; [lia |]); cbn [aggregateFrom].
  - destruct (Z.leb_spec time now) as [Hle | Hgt]; [lia |].
    cbn. rewrite app_nil_r. reflexivity.
  - destruct (Z.leb_spec time now) as [Hle | Hgt]; [| nia].
    rewrite push_if_nonempty, IH by lia.
    cbn [seq map flat_map]. rewrite <- seq_shift, map_map.
    rewrite <- app_assoc. f_equal. f_equal. f_equal.
    + unfold bucketPoint, bucketOf.
      replace (time + Z.of_nat 0 * interval) with time by lia.
      destruct (filter (inInterval time interval) filteredHistory);
        reflexivity.
    + f_equal. apply map_ext. intros k. lia.
Qed.

(** A non-positive [interval] never moves [time] past [now]: the loop
    does not end, whatever the fuel. *)
Lemma aggregateFrom_diverges (filteredHistory : list GasPoint.t)
    (interval now : Z) :
  interval <= 0 ->
  forall (fuel : nat) (time : Z) (aggregated : list GasPoint.t),
    time <= now ->
    aggregateFrom fuel filteredHistory interval now time aggregated = None.
Proof.
  intros Hneg. induction fuel as [| fuel IH]; intros time aggregated Hle.
  - reflexivity.
  - cbn [aggregateFrom].
    destruct (Z.leb_spec time now) as [_ | Hgt]; [| lia].
    apply IH. lia.
Qed.

(** So does [getChartData] on a history that is not empty. *)
Lemma getChartData_fuel_diverges (fuel : nat) (now : Z) (s : GasState.t)
    (chain : ChainKey) (interval : Z) :
  interval <= 0 ->
  historyOf chain s <> [] ->
  getChartData_fuel fuel now s chain interval = None.
Proof.
  intros Hneg Hhistory. unfold getChartData_fuel.
  fold (historyOf chain s).
  destruct (historyOf chain s) as [| p rest]; [contradiction |].
  cbn [List.length Nat.eqb].
  apply aggregateFrom_diverges; [assumption |].
  unfold dayMillis. lia.
Qed.

Lemma bucketOf_filtered (history : list GasPoint.t)
    (intervalStart time interval : Z) :
  intervalStart <= time ->
  bucketOf
    (filter (fun point => intervalStart <=? GasPoint.timestamp point) history)
    time interval
  = bucketOf history time interval.
Proof.
  intros Hle. unfold bucketOf.
  induction history as [| p rest IH]; cbn [filter]; [reflexivity |].
  destruct (Z.leb_spec intervalStart (GasPoint.timestamp p)) as [Hin | Hout].
  - cbn [filter]. rewrite IH. reflexivity.
  - rewrite IH.
    replace (inInterval time interval p) with false; [reflexivity |].
    unfold inInterval.
    destruct (Z.leb_spec time (GasPoint.timestamp p)); [lia | reflexivity].
Qed.

Lemma flat_map_ext_in {A B : Type} (f g : A -> list B) (l : list A) :
  (forall a : A, In a l -> f a = g a) -> flat_map f l = flat_map g l.
Proof.
  induction l as [| a rest IH]; intros H; cbn [flat_map]; [reflexivity |].
  rewrite (H a) by (left; reflexivity).
  rewrite IH; [reflexivity |].
  intros b Hb. apply H. right. exact Hb.
Qed.

Lemma bucketStarts_lower (now interval time : Z) :
  0 < interval -> In time (bucketStarts now interval) ->
  now - dayMillis <= time.
Proof.
  intros Hpos Hin. unfold bucketStarts in Hin.
  apply in_map_iff in Hin. destruct Hin as (k & <- & _). nia.
Qed.

(** For a positive [interval], [getChartData] returns, and returns the
    series bucket by bucket. *)
Lemma getChartData_aggregatedSeries (now : Z) (s : GasState.t)
    (chain : ChainKey) (interval : Z) :
  0 < interval ->
  getChartData now s chain interval
  = Some (aggregatedSeries now (historyOf chain s) interval).
Proof.
  intros Hpos. unfold getChartData, getChartData_fuel, aggregatedSeries.
  fold (historyOf chain s).
  destruct (historyOf chain s) as [| p rest] eqn:Hhist.
  - cbn [List.length Nat.eqb]. f_equal. symmetry.
    induction (bucketStarts now interval) as [| t ts IH]; [reflexivity |].
    cbn [flat_map]. rewrite IH. reflexivity.
  - cbn [List.length Nat.eqb].
    assert (Hdiv : 0 <= dayMillis / interval)
      by (apply Z.div_pos; [discriminate | lia]).
    pose proof (Z.mul_div_le dayMillis interval Hpos) as Hlow.
    pose proof (Z.mul_succ_div_gt dayMillis interval Hpos) as Hhigh.
    rewrite (aggregateFrom_spec _ interval now Hpos
               (Z.to_nat (dayMillis / interval) + 1)).
    + cbn [app]. f_equal. apply flat_map_ext_in.
      intros time Hin. unfold bucketPoint.
      rewrite bucketOf_filtered; [reflexivity |].
      apply (bucketStarts_lower now interval time Hpos Hin).
    + rewrite Nat2Z.inj_add, Z2Nat.id by assumption. lia.
    + unfold chartFuel. lia.
Qed.

(** Every point of the series stands for a bucket that has raw points, and
    is the average point of that bucket. *)
Lemma aggregatedSeries_points (now : Z) (history : list GasPoint.t)
    (interval : Z) :
  Forall
    (fun q =>
       let bucket := bucketOf history (GasPoint.timestamp q) interval in
       bucket <> [] /\ q = averagePoint (GasPoint.timestamp q) bucket)
    (aggregatedSeries now history interval).
Proof.
  apply Forall_forall. intros q Hin. unfold aggregatedSeries in Hin.
  apply in_flat_map in Hin. destruct Hin as (time & _ & Hq).
  unfold bucketPoint in Hq.
  destruct (bucketOf history time interval) as [| p rest] eqn:Hbucket;
    [contradiction |].
  destruct Hq as [<- | []].
  cbn [averagePoint GasPoint.timestamp]. cbv zeta.
  rewrite Hbucket. split; [discriminate | reflexivity].
Qed.

Lemma Forall_bucketOf (P : GasPoint.t -> Prop) (history : list GasPoint.t)
    (time interval : Z) :
  Forall P history -> Forall P (bucketOf history time interval).
Proof.
  intros H. unfold bucketOf. apply Forall_forall. intros p Hp.
  apply filter_In in Hp. destruct Hp as [Hp _].
  rewrite Forall_forall in H. apply H. exact Hp.
Qed.

(** ** The aggregated series *)

(** C4. For a positive interval [getChartData] returns a series, each of
    whose points stands for a bucket that has at least one raw point, and
    whose [totalFee] is the arithmetic mean of [baseFee + priorityFee]
    over the raw points of that bucket (exactly, hence within 1e-9), the
    history holding points with [totalFee = baseFee + priorityFee]. *)
Theorem getChartData_buckets_backed_and_averaged (now : Z) (s : GasState.t)
    (chain : ChainKey) (interval : Z) :
  0 < interval ->
  Forall feeConsistent (historyOf chain s) ->
  exists series : list GasPoint.t,
    getChartData now s chain interval = Some series
    /\ Forall
         (fun q =>
            let bucket :=
              bucketOf (historyOf chain s) (GasPoint.timestamp q) interval in
            let meanFee :=
              mean
                (map (fun p => GasPoint.baseFee p + GasPoint.priorityFee p)%Q
                   bucket) in
            bucket <> []
            /\ (GasPoint.totalFee q == meanFee)%Q
            /\ (Qabs (GasPoint.totalFee q - meanFee) <= 1e-9)%Q)
         series.
Proof.
  intros Hpos Hconsistent.
  exists (aggregatedSeries now (historyOf chain s) interval).
  split; [apply getChartData_aggregatedSeries; assumption |].
  pose proof (aggregatedSeries_points now (historyOf chain s) interval)
    as Hpoints.
  rewrite Forall_forall in Hpoints |- *.
  intros q Hq. destruct (Hpoints q Hq) as [Hne Hav]. cbv zeta in Hne, Hav |- *.
  set (bucket := bucketOf (historyOf chain s) (GasPoint.timestamp q) interval)
    in *.
  assert (Hmean :
    (GasPoint.totalFee q
     == mean (map (fun p => GasPoint.baseFee p + GasPoint.priorityFee p)%Q
                bucket))%Q).
  { rewrite Hav at 1.
    destruct (averagePoint_means (GasPoint.timestamp q) bucket)
      as (_ & _ & _ & ->).
    unfold mean, lengthQ.
    rewrite Qsum_feeConsistent, !length_map; [reflexivity |].
    apply Forall_bucketOf. exact Hconsistent. }
  split; [exact Hne | split; [exact Hmean |]].
  rewrite Hmean. unfold Qminus. rewrite Qplus_opp_r. vm_compute. discriminate.
Qed.

Lemma getChartData_buckets_backed_and_averaged_witness :
  exists series : list GasPoint.t,
    getChartData 900000 scenarioAState Ethereum 900000 = Some series
    /\ Forall
         (fun q =>
            let bucket :=
              bucketOf (historyOf Ethereum scenarioAState)
                (GasPoint.timestamp q) 900000 in
            let meanFee :=
              mean
                (map (fun p => GasPoint.baseFee p + GasPoint.priorityFee p)%Q
                   bucket) in
            bucket <> []
            /\ (GasPoint.totalFee q == meanFee)%Q
            /\ (Qabs (GasPoint.totalFee q - meanFee) <= 1e-9)%Q)
         series.
Proof.
  apply (getChartData_buckets_backed_and_averaged 900000 scenarioAState
           Ethereum 900000).
  - lia.
  - repeat (apply Forall_cons || apply Forall_nil); vm_compute; reflexivity.
Defined.

(** C5. Scenario A: with the three points of total fee 15, 20 and 25
    stamped 0, 400000 and 800000 as the Ethereum history, the series for
    the window ending at 900000 with 900000 ms buckets is one point,
    stamped 0, whose fees are the means of the three points' fees: its
    [totalFee] is 20.  In general, for a positive interval the series has
    one point per bucket of the window that has raw points, in order of
    bucket start, and each point's fee fields are the arithmetic means
    over the raw points stamped in [[start, start + interval)]. *)
Theorem getChartData_scenarioA_bucket_means :
  (forall (s : GasState.t) (b1 p1 b2 p2 b3 p3 : Q) (u1 u2 u3 : option Q),
     historyOf Ethereum s = scenarioAPoints b1 p1 b2 p2 b3 p3 u1 u2 u3 ->
     exists q : GasPoint.t,
       getChartData 900000 s Ethereum defaultInterval = Some [q]
       /\ GasPoint.timestamp q = 0
       /\ (GasPoint.totalFee q == 20
           /\ GasPoint.baseFee q == (b1 + b2 + b3) / 3
           /\ GasPoint.priorityFee q == (p1 + p2 + p3) / 3)%Q)
  /\ (forall (now : Z) (s : GasState.t) (chain : ChainKey) (interval : Z),
        0 < interval ->
        exists series : list GasPoint.t,
          getChartData now s chain interval = Some series
          /\ series
             = flat_map (bucketPoint (historyOf chain s) interval)
                 (bucketStarts now interval)
          /\ Forall
               (fun q =>
                  let bucket :=
                    bucketOf (historyOf chain s) (GasPoint.timestamp q)
                      interval in
                  bucket <> []
                  /\ (GasPoint.baseFee q
                      == mean (map GasPoint.baseFee bucket)
                      /\ GasPoint.priorityFee q
                         == mean (map GasPoint.priorityFee bucket)
                      /\ GasPoint.totalFee q
                         == mean (map GasPoint.totalFee bucket))%Q)
               series).
Proof.
  split.
  - intros s b1 p1 b2 p2 b3 p3 u1 u2 u3 Hhistory.
    exists (averagePoint 0 (scenarioAPoints b1 p1 b2 p2 b3 p3 u1 u2 u3)).
    split; [| split; [reflexivity |]].
    + rewrite getChartData_aggregatedSeries by reflexivity.
      rewrite Hhistory. reflexivity.
    + unfold averagePoint, scenarioAPoints, sumFees, lengthQ.
      cbn [fold_left List.length GasPoint.baseFee GasPoint.priorityFee
             GasPoint.totalFee FeeSum.baseFee FeeSum.priorityFee
             FeeSum.totalFee].
      change (inject_Z (Z.of_nat 3)) with 3%Q.
      split; [vm_compute; reflexivity | split; field].
  - intros now s chain interval Hpos.
    exists (aggregatedSeries now (historyOf chain s) interval).
    split; [apply getChartData_aggregatedSeries; assumption |].
    split; [reflexivity |].
    pose proof (aggregatedSeries_points now (historyOf chain s) interval)
      as Hpoints.
    rewrite Forall_forall in Hpoints |- *.
    intros q Hq. destruct (Hpoints q Hq) as [Hne Hav].
    cbv zeta in Hne, Hav |- *.
    split; [exact Hne |].
    rewrite Hav at 1 3 5.
    apply averagePoint_means.
Qed.

Lemma getChartData_scenarioA_bucket_means_witness :
  exists q : GasPoint.t,
    getChartData 900000 scenarioAState Ethereum defaultInterval = Some [q]
    /\ GasPoint.timestamp q = 0
    /\ (GasPoint.totalFee q == 20
        /\ GasPoint.baseFee q == (13 + 18 + 23) / 3
        /\ GasPoint.priorityFee q == (2 + 2 + 2) / 3)%Q.
Proof.
  apply (proj1 getChartData_scenarioA_bucket_means scenarioAState
           13 2 18 2 23 2 None None None)%Q.
  reflexivity.
Defined.

(** * Further properties *)

(** ** The series of [getChartData]: order and window *)





(** The time stamps of the series are the starts of the non-empty
    buckets. *)
Lemma timestamps_aggregatedSeries (now : Z) (history : list GasPoint.t)
    (interval : Z) :
  timestamps (aggregatedSeries now history interval)
  = filter
      (fun time =>
         negb (List.length (bucketOf history time interval) =? 0)%nat)
      (bucketStarts now interval).
Proof.
  unfold timestamps, aggregatedSeries.
  induction (bucketStarts now interval) as [| time rest IH];
    cbn [flat_map filter map]; [reflexivity |].
  rewrite map_app, IH. unfold bucketPoint.
  destruct (bucketOf history time interval); reflexivity.
Qed.


(** ** The series of [getChartData]: counting raw points *)

(** Turns the tests of [inRange] into inequalities. *)
Ltac range_facts :=
  unfold inRange, inInterval, inWindow in *;
  rewrite ?andb_true_iff, ?andb_false_iff, ?Z.leb_le, ?Z.ltb_lt,
    ?Z.leb_gt, ?Z.ltb_ge in *.

Lemma filter_inRange_split_length (from mid to : Z)
    (l : list GasPoint.t) :
  from <= mid <= to ->
  (List.length (filter (inRange from mid) l)
   + List.length (filter (inRange mid to) l))%nat
  = List.length (filter (inRange from to) l).
Proof.
  intros H. induction l as [| p rest IH]; [reflexivity |].
  cbn [filter].
  destruct (inRange from mid p) eqn:E1, (inRange mid to p) eqn:E2,
    (inRange from to p) eqn:E3;
    cbn [List.length]; try lia; range_facts; lia.
Qed.



(** Consecutive buckets tile the range they cover. *)
Lemma buckets_tile_length (history : list GasPoint.t)
    (start interval : Z) :
  0 < interval ->
  forall n : nat,
    list_sum
      (map (fun k =>
              List.length
                (bucketOf history (start + Z.of_nat k * interval) interval))
         (seq 0 n))
    = List.length
        (filter (inRange start (start + Z.of_nat n * interval)) history).
Proof.
  intros Hpos. induction n as [| n IH].
  - cbn [seq map list_sum].
    replace (start + Z.of_nat 0 * interval) with start by lia.
    induction history as [| p rest IHh]; [reflexivity |].
    cbn [filter].
    destruct (inRange start start p) eqn:E; [| exact IHh].
    exfalso; range_facts; lia.
  - rewrite seq_S, map_app, list_sum_app, IH.
    cbn [map list_sum fold_right Nat.add]. rewrite Nat.add_0_r.
    rewrite <- (filter_inRange_split_length start
                  (start + Z.of_nat n * interval)
                  (start + Z.of_nat (S n) * interval)) by nia.
    f_equal. unfold bucketOf. f_equal.
    apply filter_ext. intros p. unfold inInterval, inRange.
    replace (start + Z.of_nat n * interval + interval)
      with (start + Z.of_nat (S n) * interval) by lia.
    reflexivity.
Qed.


Lemma bucketSize_aggregatedSeries (now : Z) (history : list GasPoint.t)
    (interval : Z) :
  list_sum
    (map (bucketSize history interval)
       (aggregatedSeries now history interval))
  = list_sum
      (map (fun time => List.length (bucketOf history time interval))
         (bucketStarts now interval)).
Proof.
  unfold aggregatedSeries.
  induction (bucketStarts now interval) as [| time rest IH];
    cbn [flat_map map list_sum fold_right]; [reflexivity |].
  rewrite map_app, list_sum_app, IH. f_equal.
  unfold bucketPoint, bucketSize.
  destruct (bucketOf history time interval) as [| p pts] eqn:E;
    [reflexivity |].
  cbn [map list_sum fold_right averagePoint GasPoint.timestamp].
  rewrite E. apply Nat.add_0_r.
Qed.


Lemma length_le_list_sum {A : Type} (f : A -> nat) (l : list A) :
  Forall (fun x => (1 <= f x)%nat) l ->
  (List.length l <= list_sum (map f l))%nat.
Proof.
  induction 1 as [| x l Hx Hl IH]; cbn [List.length map list_sum fold_right];
    [lia |].
  fold (list_sum (map f l)). lia.
Qed.

Lemma filter_length_implies {A : Type} (f g : A -> bool) (l : list A) :
  (forall x : A, In x l -> f x = true -> g x = true) ->
  (List.length (filter f l) <= List.length (filter g l))%nat.
Proof.
  induction l as [| x l IH]; intros H; cbn [filter]; [lia |].
  assert (IH' : (List.length (filter f l) <= List.length (filter g l))%nat).
  { apply IH. intros y Hy. apply H. right. exact Hy. }
  destruct (f x) eqn:Ef.
  - rewrite (H x (or_introl eq_refl) Ef). cbn [List.length]. lia.
  - destruct (g x); cbn [List.length]; lia.
Qed.

(** The buckets of the window, taken together, are the points of the
    range from the window start to the end of the last bucket. *)
Lemma bucketStarts_tile_length (now : Z) (history : list GasPoint.t)
    (interval : Z) :
  0 < interval ->
  list_sum
    (map (fun time => List.length (bucketOf history time interval))
       (bucketStarts now interval))
  = List.length
      (filter
         (inRange (now - dayMillis)
            (now - dayMillis
             + Z.of_nat (Z.to_nat (dayMillis / interval) + 1) * interval))
         history).
Proof.
  intros Hpos. unfold bucketStarts. rewrite map_map.
  apply (buckets_tile_length history (now - dayMillis) interval Hpos).
Qed.

(** X2. For a positive interval the series has at most one point per
    bucket of the window ([24h / interval + 1] of them, 97 by default)
    and at most as many points as there are raw points in the window. *)
Theorem getChartData_length_bounds (now : Z) (s : GasState.t)
    (chain : ChainKey) (interval : Z) :
  0 < interval ->
  exists series : list GasPoint.t,
    getChartData now s chain interval = Some series
    /\ (List.length series <= Z.to_nat (dayMillis / interval) + 1)%nat
    /\ (List.length series
        <= List.length (windowHistory now (historyOf chain s)))%nat
    /\ (List.length (windowHistory now (historyOf chain s))
        <= List.length (historyOf chain s))%nat.
Proof.
  intros Hpos.
  exists (aggregatedSeries now (historyOf chain s) interval).
  split; [apply getChartData_aggregatedSeries; assumption |].
  split; [| split].
  - rewrite <- (length_map GasPoint.timestamp).
    fold (timestamps (aggregatedSeries now (historyOf chain s) interval)).
    rewrite timestamps_aggregatedSeries.
    etransitivity; [apply filter_length_le |].
    unfold bucketStarts. rewrite length_map, length_seq. lia.
  - etransitivity.
    { apply (length_le_list_sum (bucketSize (historyOf chain s) interval)).
      pose proof (aggregatedSeries_points now (historyOf chain s) interval)
        as Hpoints.
      rewrite Forall_forall in Hpoints |- *.
      intros q Hq. destruct (Hpoints q Hq) as [Hne _]. cbv zeta in Hne.
      unfold bucketSize.
      destruct (bucketOf (historyOf chain s) (GasPoint.timestamp q) interval);
        [contradiction | cbn [List.length]; lia]. }
    rewrite bucketSize_aggregatedSeries, bucketStarts_tile_length
      by assumption.
    unfold windowHistory. apply filter_length_implies.
    intros p _ Hp. range_facts. lia.
  - unfold windowHistory. apply filter_length_le.
Qed.





(** ** The series of [getChartData]: what it depends on *)




(** X5. [getChartData] returns the empty series at once on an empty
    history, whatever the interval; on a history that is not empty a zero
    or negative interval keeps its loop running for ever, even when no
    point lies in the window. *)
Theorem getChartData_empty_or_endless (fuel : nat) (now : Z)
    (s : GasState.t) (chain : ChainKey) (interval : Z) :
  (historyOf chain s = [] ->
   getChartData_fuel fuel now s chain interval = Some [])
  /\ (historyOf chain s <> [] -> interval <= 0 ->
      getChartData_fuel fuel now s chain interval = None).
Proof.
  split.
  - intros Hempty. unfold getChartData_fuel.
    fold (historyOf chain s). rewrite Hempty. reflexivity.
  - intros Hne Hneg. apply getChartData_fuel_diverges; assumption.
Qed.

Lemma getChartData_empty_or_endless_witness :
  getChartData_fuel 0 900000 initialState Ethereum 0 = Some []
  /\ getChartData_fuel 1000 100000000 scenarioAState Ethereum 0 = None.
Proof.
  split.
  - apply (getChartData_empty_or_endless 0 900000 initialState Ethereum 0).
    reflexivity.
  - apply (getChartData_empty_or_endless 1000 100000000 scenarioAState
             Ethereum 0).
    + discriminate.
    + lia.
Defined.

(** ** The series of [getChartData]: averages stay in range *)







Lemma getChartData_length_bounds_witness :
  exists series : list GasPoint.t,
    getChartData 900000 scenarioAState Ethereum 900000 = Some series
    /\ (List.length series <= Z.to_nat (dayMillis / 900000) + 1)%nat
    /\ (List.length series
        <= List.length
             (windowHistory 900000 (historyOf Ethereum scenarioAState)))%nat
    /\ (List.length (windowHistory 900000 (historyOf Ethereum scenarioAState))
        <= List.length (historyOf Ethereum scenarioAState))%nat.
Proof.
  apply (getChartData_length_bounds 900000 scenarioAState Ethereum 900000).
  lia.
Defined.

(** ** The snapshot of a chain and its history *)

Lemma newestPoint_slice_last_app (n : nat) (history : list GasPoint.t)
    (point : GasPoint.t) :
  (0 < n)%nat ->
  newestPoint (slice_last n (history ++ [point])) = Some point.
Proof.
  intros Hn. unfold newestPoint, slice_last.
  rewrite length_app, skipn_app. cbn [List.length].
  replace (List.length history + 1 - n - List.length history)%nat
    with 0%nat by lia.
  cbn [skipn]. rewrite rev_app_distr. reflexivity.
Qed.

Lemma snapshotMirrorsNewest_ingest (now blockNumber : Z)
    (chain other : ChainKey) (gasPoint : GasPoint.t) (s : GasState.t) :
  snapshotMirrorsNewest (chainOf other s) ->
  snapshotMirrorsNewest
    (chainOf other
       (addGasPoint chain gasPoint
          (updateChainData now chain (feeUpdate gasPoint blockNumber) s))).
Proof.
  intros H.
  destruct (ChainKey_eq_dec chain other) as [<- | Hneq].
  - rewrite chainOf_addGasPoint_same, chainOf_updateChainData_same.
    unfold snapshotMirrorsNewest.
    cbn [ChainData.history ChainData.with_history ChainData.baseFee
           ChainData.priorityFee ChainData.gasPrice].
    rewrite newestPoint_slice_last_app by lia.
    cbn. auto.
  - rewrite chainOf_addGasPoint_other, chainOf_updateChainData_other
      by assumption.
    exact H.
Qed.

Lemma snapshotMirrorsNewest_step (ev : Event) (s : GasState.t) :
  (forall chain, snapshotMirrorsNewest (chainOf chain s)) ->
  forall chain, snapshotMirrorsNewest (chainOf chain (step ev s)).
Proof.
  intros H chain.
  assert (Hconnect : forall now c b s0,
            (forall chain, snapshotMirrorsNewest (chainOf chain s0)) ->
            forall chain,
              snapshotMirrorsNewest
                (chainOf chain (setupProvider now c b s0))).
  { intros now c b s0 H0 chain0. unfold setupProvider.
    destruct (ChainKey_eq_dec c chain0) as [<- | Hneq].
    - rewrite chainOf_updateChainData_same. apply (H0 c).
    - rewrite chainOf_updateChainData_other by assumption. apply H0. }
  assert (Htick : forall draws s0,
            (forall chain, snapshotMirrorsNewest (chainOf chain s0)) ->
            forall chain,
              snapshotMirrorsNewest
                (chainOf chain (updateSimulatedData draws s0))).
  { intros draws s0 H0 chain0. unfold updateSimulatedData, simulateChain.
    change (chainOf chain0 (setEthUsdPrice ?p ?x)) with (chainOf chain0 x).
    apply (snapshotMirrorsNewest_ingest _ _ Arbitrum chain0).
    apply (snapshotMirrorsNewest_ingest _ _ Polygon chain0).
    apply (snapshotMirrorsNewest_ingest _ _ Ethereum chain0).
    apply H0. }
  destruct ev; cbn [step].
  - apply Hconnect. exact H.
  - destruct getBlock as [| [block |]]; cbn [handleNewBlock]; try apply H.
    apply (snapshotMirrorsNewest_ingest nowUpdate0 blockNumber chainName chain
             (blockGasPoint nowPoint0 s
                (blockFees chainName block getFeeData))).
    apply H.
  - destruct (updateEthPrice_chains outcome s) as (s' & -> & Hchains).
    unfold chainOf. rewrite Hchains. apply H.
  - unfold setupDemoData. apply Htick. intros c.
    change (chainOf c (setEthUsdPrice ?p ?x)) with (chainOf c x).
    apply (Hconnect now3 Arbitrum true).
    apply (Hconnect now2 Polygon true).
    apply (Hconnect now1 Ethereum true).
    exact H.
  - apply Htick. exact H.
  - apply H.
  - apply H.
  - apply H.
  - apply H.
  - apply H.
Qed.

(** X7. In every state of a run from the initial store, the current
    [baseFee], [priorityFee] and [gasPrice] of each chain record are the
    fees of the newest point of its history; while the history is empty
    they are still 0 and no block number was recorded. *)
Theorem snapshot_mirrors_newest_point (evs : list Event)
    (chain : ChainKey) :
  snapshotMirrorsNewest (chainOf chain (run evs initialState)).
Proof.
  revert chain.
  assert (H : forall s,
            (forall chain, snapshotMirrorsNewest (chainOf chain s)) ->
            forall chain, snapshotMirrorsNewest (chainOf chain (run evs s))).
  { induction evs as [| ev rest IH]; intros s Hs; [exact Hs |].
    cbn [run fold_left]. apply IH.
    apply snapshotMirrorsNewest_step. exact Hs. }
  apply H. intros chain. destruct chain; cbn; auto.
Qed.

(** ** What a block touches *)

(** X8. [handleNewBlock] for one chain leaves the records of the other
    chains, the exchange rate, the simulation inputs, the mode and the
    status fields as they were; when the block cannot be fetched
    ([getBlock] throws or answers [null]) it leaves the whole store as it
    was. *)
Theorem handleNewBlock_touches_one_chain (chainName other : ChainKey)
    (blockNumber : Z) (getBlock : GetBlockResult)
    (getFeeData : FeeDataResult) (nowPoint nowUpdate : Z)
    (s : GasState.t) :
  let s' :=
    handleNewBlock chainName blockNumber getBlock getFeeData
      nowPoint nowUpdate s in
  (chainName <> other -> chainOf other s' = chainOf other s)
  /\ sameSettings s' s
  /\ (getBlock = GetBlockThrows \/ getBlock = GetBlockReturns None ->
      s' = s).
Proof.
  cbv zeta. split; [| split].
  - intros Hneq.
    destruct getBlock as [| [block |]]; cbn [handleNewBlock];
      try reflexivity.
    rewrite chainOf_addGasPoint_other, chainOf_updateChainData_other
      by assumption.
    reflexivity.
  - destruct getBlock as [| [block |]]; cbn [handleNewBlock];
      repeat split.
  - intros [-> | ->]; reflexivity.
Qed.

Lemma handleNewBlock_touches_one_chain_witness :
  let s' :=
    handleNewBlock Polygon 17 (GetBlockReturns (Some sampleBlock))
      (FeeDataReturns (Some 50000000000)) 8000 8001
      (scenarioBState Ethereum) in
  chainOf Ethereum s' = chainOf Ethereum (scenarioBState Ethereum)
  /\ handleNewBlock Polygon 17 GetBlockThrows FeeDataThrows 8000 8001
       (scenarioBState Ethereum)
     = scenarioBState Ethereum.
Proof.
  split.
  - apply (handleNewBlock_touches_one_chain Polygon Ethereum 17
             (GetBlockReturns (Some sampleBlock))
             (FeeDataReturns (Some 50000000000)) 8000 8001
             (scenarioBState Ethereum)).
    discriminate.
  - apply (handleNewBlock_touches_one_chain Polygon Ethereum 17
             GetBlockThrows FeeDataThrows 8000 8001
             (scenarioBState Ethereum)).
    left. reflexivity.
Defined.

(** ** The fees read from a block *)



(** ** The exchange rate after a price update *)

(** X10. [updateEthPrice] changes nothing but [ethUsdPrice].  Without an
    Ethereum provider it changes nothing at all, so a price of 0 stays 0:
    the fallback of 2000 is applied only when the call fails.  After a
    failed call the price is never 0. *)
Theorem updateEthPrice_effects (outcome : OracleOutcome) (s : GasState.t) :
  exists s' : GasState.t,
    updateEthPrice outcome s = Returned s'
    /\ GasState.chains s' = GasState.chains s
    /\ GasState.simulation s' = GasState.simulation s
    /\ GasState.mode s' = GasState.mode s
    /\ GasState.isLoading s' = GasState.isLoading s
    /\ GasState.error s' = GasState.error s
    /\ (outcome = NoProvider -> s' = s)
    /\ (forall message, outcome = Slot0Throws message ->
        ~ (GasState.ethUsdPrice s' == 0)%Q)
    /\ (forall price, outcome = Slot0Price price ->
        GasState.ethUsdPrice s' = price).
Proof.
  destruct outcome as [| message | price]; cbn.
  - exists s. repeat split; try reflexivity; intros; discriminate.
  - destruct (Qeq_bool (GasState.ethUsdPrice s) 0) eqn:E.
    + exists (setEthUsdPrice 2000 s).
      repeat split; try reflexivity; intros; discriminate.
    + exists s.
      repeat split; try reflexivity; try (intros; discriminate).
      intros _ _. apply Qeq_bool_neq. exact E.
  - exists (setEthUsdPrice price s).
    repeat split; try reflexivity; try (intros; discriminate).
    intros p [= <-]. reflexivity.
Qed.

(** ** A simulated tick *)

Lemma chainOf_simulateChain_same (store : GasState.t) (chain : ChainKey)
    (d : ChainDraw) (s : GasState.t) :
  chainOf chain (simulateChain store chain d s)
  = ChainData.with_history
      (slice_last 100
         (ChainData.history (chainOf chain s)
          ++ [simulatedGasPoint store chain d]))
      (ChainData.with_lastUpdate (nowUpdate d)
         (ChainData.spread (chainOf chain s)
            (feeUpdate (simulatedGasPoint store chain d)
               (nowBlock d / 6000)))).
Proof.
  unfold simulateChain.
  rewrite chainOf_addGasPoint_same, chainOf_updateChainData_same.
  reflexivity.
Qed.

Lemma chainOf_simulateChain_other (store : GasState.t)
    (chain other : ChainKey) (d : ChainDraw) (s : GasState.t) :
  chain <> other ->
  chainOf other (simulateChain store chain d s) = chainOf other s.
Proof.
  intros Hneq. unfold simulateChain.
  rewrite chainOf_addGasPoint_other, chainOf_updateChainData_other
    by assumption.
  reflexivity.
Qed.

(** Each chain record after a tick is the old record after that chain's
    own iteration of the [forEach]. *)
Lemma chainOf_updateSimulatedData (draws : TickDraws) (chain : ChainKey)
    (s : GasState.t) :
  chainOf chain (updateSimulatedData draws s)
  = chainOf chain (simulateChain s chain (drawFor draws chain) s).
Proof.
  unfold updateSimulatedData.
  change (chainOf chain (setEthUsdPrice ?p ?x)) with (chainOf chain x).
  destruct chain; cbn [drawFor].
  - rewrite !chainOf_simulateChain_other by discriminate. reflexivity.
  - rewrite chainOf_simulateChain_other by discriminate.
    rewrite !chainOf_simulateChain_same.
    rewrite chainOf_simulateChain_other by discriminate. reflexivity.
  - rewrite !chainOf_simulateChain_same.
    rewrite !chainOf_simulateChain_other by discriminate. reflexivity.
Qed.





(** X13. A simulated tick appends exactly one point to the history of
    each of the three chains (dropping the oldest one of a full history):
    the point carries the exchange rate the store had before the tick,
    and the record gets the block number [floor(now / 6000)] and the time
    of its update. *)
Theorem updateSimulatedData_appends_one_point (draws : TickDraws)
    (chain : ChainKey) (s : GasState.t) :
  let c := chainOf chain (updateSimulatedData draws s) in
  let d := drawFor draws chain in
  let point := simulatedGasPoint s chain d in
  ChainData.history c = slice_last 100 (historyOf chain s ++ [point])
  /\ List.length (ChainData.history c)
     = Nat.min 100 (List.length (historyOf chain s) + 1)
  /\ newestPoint (ChainData.history c) = Some point
  /\ GasPoint.usdPrice point = Some (GasState.ethUsdPrice s)
  /\ GasPoint.timestamp point = nowPoint d
  /\ ChainData.blockNumber c = nowBlock d / 6000
  /\ ChainData.lastUpdate c = nowUpdate d
  /\ ChainData.isConnected c = ChainData.isConnected (chainOf chain s).
Proof.
  cbv zeta.
  rewrite chainOf_updateSimulatedData, chainOf_simulateChain_same.
  cbn [ChainData.history ChainData.with_history ChainData.blockNumber
         ChainData.lastUpdate ChainData.isConnected].
  split; [reflexivity |]. split.
  { rewrite slice_last_length, length_app. reflexivity. }
  split; [apply newestPoint_slice_last_app; lia |].
  repeat split.
Qed.

(** ** The gas widget *)

Lemma Qltb_lt (a b : Q) : Qltb a b = true <-> (a < b)%Q.
Proof.
  unfold Qltb. rewrite negb_true_iff. split.
  - intros H. apply Qnot_le_lt. intros Hle.
    apply Qle_bool_iff in Hle. congruence.
  - intros H. destruct (Qle_bool b a) eqn:E; [| reflexivity].
    apply Qle_bool_iff in E. apply Qlt_not_le in H. contradiction.
Qed.

Lemma Qltb_ge (a b : Q) : Qltb a b = false <-> (b <= a)%Q.
Proof.
  unfold Qltb. rewrite negb_false_iff. apply Qle_bool_iff.
Qed.



(** X15. In every state of a run from the initial store the widget of a
    chain and the simulator agree: the widget's transfer cost, computed
    from [gasPrice], is the simulator's gas cost for a gas limit of
    21000, computed from [baseFee + priorityFee]. *)
Theorem widgetCost_agrees_with_simulator (evs : list Event)
    (chain : ChainKey) (amount : Q) :
  Forall validEvent evs ->
  let s := run evs initialState in
  let r := calculateTransactionCost s chain 21000 amount in
  (fst (widgetCost (chainOf chain s) (GasState.ethUsdPrice s))
   == Cost.gasCostETH r
   /\ snd (widgetCost (chainOf chain s) (GasState.ethUsdPrice s))
      == Cost.gasCostUSD r)%Q.
Proof.
  intros Hvalid. cbv zeta.
  destruct (storeInvariant_run evs initialState Hvalid
              storeInvariant_initialState chain) as (Hsum & _).
  unfold gasPriceIsSum in Hsum.
  unfold widgetCost, calculateTransactionCost, standardGasLimit.
  cbn [fst snd Cost.gasCostETH Cost.gasCostUSD].
  fold (chainOf chain (run evs initialState)).
  rewrite Hsum. split; reflexivity.
Qed.

Lemma widgetCost_agrees_with_simulator_witness :
  let s := run sampleRun initialState in
  let r := calculateTransactionCost s Polygon 21000 0.5 in
  (fst (widgetCost (chainOf Polygon s) (GasState.ethUsdPrice s))
   == Cost.gasCostETH r
   /\ snd (widgetCost (chainOf Polygon s) (GasState.ethUsdPrice s))
      == Cost.gasCostUSD r)%Q.
Proof.
  exact (widgetCost_agrees_with_simulator sampleRun Polygon 0.5
           sampleRun_valid).
Defined.

(** ** The dashboard *)



(** ** The cheapest chain *)

(** X17. [getCheapestChain] returns one of the three entries of [costs],
    one whose gas cost in USD is not above that of any chain, and the
    first such entry in the order Ethereum, Polygon, Arbitrum: every
    earlier chain costs strictly more. *)
Theorem getCheapestChain_is_first_minimum (costs : Costs) :
  let (chain, cost) := getCheapestChain costs in
  cost = costOf costs chain
  /\ (forall other : ChainKey,
        (Cost.gasCostUSD cost <= Cost.gasCostUSD (costOf costs other))%Q)
  /\ (forall other : ChainKey,
        (chainIndex other < chainIndex chain)%nat ->
        (Cost.gasCostUSD cost < Cost.gasCostUSD (costOf costs other))%Q).
Proof.
  unfold getCheapestChain, costEntries. cbn [fold_left snd].
  rewrite (proj2 (Qltb_ge _ _) (Qle_refl _)). cbv beta iota. cbn [snd].
  destruct (Qltb (Cost.gasCostUSD (costsPolygon costs))
              (Cost.gasCostUSD (costsEthereum costs))) eqn:Ep;
    [apply Qltb_lt in Ep | apply Qltb_ge in Ep]; cbn [snd];
    (match goal with
     | |- context [Qltb ?x ?y] =>
         destruct (Qltb x y) eqn:Ea;
         [apply Qltb_lt in Ea | apply Qltb_ge in Ea]
     end);
    cbv beta iota; (split; [reflexivity |]);
    (split; intros other; destruct other; cbn [costOf chainIndex];
     try lia; intros; lra).
Qed.




(** ** The amount field *)

Example parseFloat_decimal :
  match parseFloat "0.1" with Finite q => (q == 0.1)%Q | _ => False end.
Proof. vm_compute. reflexivity. Qed.

Example parseFloat_exponent :
  match parseFloat "  -12.5e-1xyz" with
  | Finite q => (q == -1.25)%Q
  | _ => False
  end.
Proof. vm_compute. reflexivity. Qed.

Example parseFloat_specials :
  parseFloat "." = NaN /\ parseFloat "" = NaN /\ parseFloat "abc" = NaN
  /\ parseFloat "-Infinity" = Infinite true.
Proof. repeat split. Qed.

Example amountPattern_samples :
  amountPattern "" = true /\ amountPattern "." = true
  /\ amountPattern "12.50" = true /\ amountPattern "-1" = false
  /\ amountPattern "1e5" = false /\ amountPattern "1.2.3" = false
  /\ amountPattern " 1" = false.
Proof. repeat split. Qed.

Lemma decimalDigit_range (c : ascii) (d : Z) :
  decimalDigit c = Some d -> 0 <= d <= 9.
Proof.
  unfold decimalDigit, digitValue.
  set (n := Z.of_N (N_of_ascii c)).
  destruct ((48 <=? n) && (n <=? 57)) eqn:E1.
  - apply andb_true_iff in E1. destruct E1 as [H1 H2].
    apply Z.leb_le in H1, H2.
    destruct (n - 48 <? 10); intros [= <-]; lia.
  - destruct ((97 <=? n) && (n <=? 122)) eqn:E2.
    + apply andb_true_iff in E2. destruct E2 as [H1 H2].
      apply Z.leb_le in H1.
      destruct (Z.ltb_spec (n - 87) 10); [lia | discriminate].
    + destruct ((65 <=? n) && (n <=? 90)) eqn:E3; [| discriminate].
      apply andb_true_iff in E3. destruct E3 as [H1 H2].
      apply Z.leb_le in H1.
      destruct (Z.ltb_spec (n - 55) 10); [lia | discriminate].
Qed.

(** A decimal digit is a character from ["0"] to ["9"]. *)
Lemma decimalDigit_code (c : ascii) (d : Z) :
  decimalDigit c = Some d -> Z.of_N (N_of_ascii c) = 48 + d /\ 0 <= d <= 9.
Proof.
  intros H. pose proof (decimalDigit_range c d H) as Hrange.
  split; [| exact Hrange].
  unfold decimalDigit, digitValue in H.
  set (n := Z.of_N (N_of_ascii c)) in *.
  destruct ((48 <=? n) && (n <=? 57)) eqn:E1.
  - destruct (n - 48 <? 10); [| discriminate]. injection H as <-. lia.
  - destruct ((97 <=? n) && (n <=? 122)) eqn:E2.
    + apply andb_true_iff in E2. destruct E2 as [H1 H2].
      apply Z.leb_le in H1.
      destruct (Z.ltb_spec (n - 87) 10); [lia | discriminate].
    + destruct ((65 <=? n) && (n <=? 90)) eqn:E3; [| discriminate].
      apply andb_true_iff in E3. destruct E3 as [H1 H2].
      apply Z.leb_le in H1.
      destruct (Z.ltb_spec (n - 55) 10); [lia | discriminate].
Qed.

Lemma takeDigits_range (s : string) :
  Forall (fun d => 0 <= d <= 9) (fst (takeDigits s)).
Proof.
  induction s as [| c rest IH]; cbn [takeDigits fst]; [constructor |].
  destruct (decimalDigit c) as [d |] eqn:E; [| constructor].
  destruct (takeDigits rest) as [ds tail]. cbn [fst] in *.
  constructor; [apply (decimalDigit_range c d E) | exact IH].
Qed.

Lemma digitsValue_from_nonneg (ds : list Z) :
  Forall (fun d => 0 <= d <= 9) ds ->
  forall acc : Z, 0 <= acc ->
    0 <= fold_left (fun a d => a * 10 + d) ds acc.
Proof.
  induction 1 as [| d ds Hd Hds IH]; intros acc Hacc; cbn [fold_left].
  - exact Hacc.
  - apply IH. lia.
Qed.

Lemma decimalValue_nonneg (whole fraction : list Z) (exponent : Z) :
  Forall (fun d => 0 <= d <= 9) whole ->
  Forall (fun d => 0 <= d <= 9) fraction ->
  (0 <= decimalValue whole fraction exponent)%Q.
Proof.
  intros Hw Hf. unfold decimalValue.
  apply Qmult_le_0_compat.
  - change 0%Q with (inject_Z 0). rewrite <- Zle_Qle.
    apply digitsValue_from_nonneg; [| lia].
    apply Forall_app. split; assumption.
  - apply Qpower_0_le. discriminate.
Qed.

(** What [unsignedDecimal] returns on digits, an optional dot and
    digits. *)
Lemma unsignedDecimal_plain (s : string) (whole : list Z) (tail : string) :
  takeDigits s = (whole, tail) ->
  String.prefix "Infinity" s = false ->
  (tail = EmptyString ->
   unsignedDecimal s
   = match whole with
     | [] => NaN
     | _ :: _ => Finite (decimalValue whole [] 0)
     end)
  /\ (forall (rest : string) (fraction : list Z),
        tail = String "." rest ->
        takeDigits rest = (fraction, EmptyString) ->
        unsignedDecimal s
        = match whole, fraction with
          | [], [] => NaN
          | _, _ => Finite (decimalValue whole fraction 0)
          end).
Proof.
  intros Htake Hprefix. unfold unsignedDecimal.
  rewrite Hprefix, Htake. split.
  - intros ->. reflexivity.
  - intros rest fraction -> Hrest. rewrite Hrest. reflexivity.
Qed.

(** A string the pattern accepts has no leading white space, no sign and
    does not spell [Infinity]. *)
Lemma amountPattern_plain (value : string) :
  amountPattern value = true ->
  parseFloat value = unsignedDecimal value
  /\ String.prefix "Infinity" value = false.
Proof.
  destruct value as [| c rest]; [intros _; split; reflexivity |].
  destruct c as [[] [] [] [] [] [] [] []];
    try (intros H; discriminate H);
    intros _; split; reflexivity.
Qed.

Lemma amountPattern_amount (value : string) :
  amountPattern value = true ->
  exists q : Q, orZero (parseFloat value) = Finite q /\ (0 <= q)%Q.
Proof.
  intros Hpattern.
  destruct (amountPattern_plain value Hpattern) as [-> Hprefix].
  destruct (takeDigits value) as [whole tail] eqn:Htake.
  pose proof (takeDigits_range value) as Hwhole.
  rewrite Htake in Hwhole. cbn [fst] in Hwhole.
  destruct (unsignedDecimal_plain value whole tail Htake Hprefix)
    as [Hempty Hdot].
  unfold amountPattern in Hpattern. rewrite Htake in Hpattern.
  cbn [snd] in Hpattern.
  destruct tail as [| c rest].
  - rewrite (Hempty eq_refl).
    destruct whole as [| d ds].
    + exists 0%Q. split; [reflexivity | apply Qle_refl].
    + eexists. split; [reflexivity |].
      apply decimalValue_nonneg; [assumption | constructor].
  - destruct (Ascii.eqb_spec c ".") as [-> | Hc].
    + destruct (takeDigits rest) as [fraction tail'] eqn:Hrest.
      pose proof (takeDigits_range rest) as Hfraction.
      rewrite Hrest in Hfraction. cbn [fst] in Hfraction.
      cbn [snd] in Hpattern.
      destruct tail' as [| c' rest']; [| discriminate].
      rewrite (Hdot rest fraction eq_refl Hrest).
      destruct whole as [| d ds]; [destruct fraction as [| f fs] |].
      * exists 0%Q. split; [reflexivity | apply Qle_refl].
      * eexists. split; [reflexivity |].
        apply decimalValue_nonneg; assumption.
      * eexists. split; [reflexivity |].
        apply decimalValue_nonneg; assumption.
    + exfalso. destruct c as [[] [] [] [] [] [] [] []];
        try discriminate Hpattern. apply Hc. reflexivity.
Qed.

(** X19. The amount handler stores exactly the inputs made of digits with
    at most one dot, and leaves the store as it was on any other input
    (a sign, an exponent, a space, a second dot).  A stored input never
    parses to [NaN] once [|| 0] is applied, and never to a negative
    number: it yields the decimal typed, and 0 for the empty string and
    for a lone dot.  (Values are exact: a digit string too long for a
    double is not modelled.) *)
Theorem handleAmountChange_accepts_plain_decimals (value : string)
    (s : GasState.t) :
  let s' := handleAmountChange value s in
  (amountPattern value = false -> s' = s)
  /\ (amountPattern value = true ->
      SimulationData.amount (GasState.simulation s') = value
      /\ SimulationData.gasLimit (GasState.simulation s')
         = SimulationData.gasLimit (GasState.simulation s)
      /\ SimulationData.chain (GasState.simulation s')
         = SimulationData.chain (GasState.simulation s)
      /\ GasState.chains s' = GasState.chains s
      /\ exists q : Q, simulationAmount s' = Finite q /\ (0 <= q)%Q).
Proof.
  cbv zeta. unfold handleAmountChange. split.
  - intros Hreject. rewrite Hreject.
    destruct (String.eqb_spec value "") as [-> | _]; [discriminate |].
    reflexivity.
  - intros Haccept. rewrite Haccept, orb_true_r.
    repeat split.
    unfold simulationAmount. cbn.
    apply amountPattern_amount. exact Haccept.
Qed.

Lemma handleAmountChange_accepts_plain_decimals_witness :
  handleAmountChange "1e5" initialState = initialState
  /\ SimulationData.amount
       (GasState.simulation (handleAmountChange "12.50" initialState))
     = "12.50"%string.
Proof.
  split.
  - apply (handleAmountChange_accepts_plain_decimals "1e5" initialState).
    reflexivity.
  - apply (handleAmountChange_accepts_plain_decimals "12.50" initialState).
    reflexivity.
Defined.

Lemma panelStep_amountPattern (ev : PanelEvent) (s : GasState.t) :
  amountPattern (SimulationData.amount (GasState.simulation s)) = true ->
  amountPattern
    (SimulationData.amount (GasState.simulation (panelStep ev s))) = true.
Proof.
  intros H. destruct ev as [value | value | chain | m]; cbn [panelStep];
    try exact H.
  unfold handleAmountChange.
  destruct ((value =? "")%string || amountPattern value) eqn:E;
    [| exact H].
  cbn. apply orb_true_iff in E. destruct E as [E | E]; [| exact E].
  apply String.eqb_eq in E. subst value. reflexivity.
Qed.

(** X20. Whatever is typed, selected or clicked in the panel, starting
    from the initial store, the stored amount keeps the shape digits, at
    most one dot, digits; so the amount used for the costs is never
    negative.  (Values are exact: a digit string too long for a double is
    not modelled.) *)
Theorem panel_amount_stays_valid (evs : list PanelEvent) :
  let s := panelRun evs initialState in
  amountPattern (SimulationData.amount (GasState.simulation s)) = true
  /\ exists q : Q, simulationAmount s = Finite q /\ (0 <= q)%Q.
Proof.
  cbv zeta.
  assert (H : forall s,
            amountPattern (SimulationData.amount (GasState.simulation s))
            = true ->
            amountPattern
              (SimulationData.amount
                 (GasState.simulation (panelRun evs s))) = true).
  { induction evs as [| ev rest IH]; intros s Hs; [exact Hs |].
    cbn [panelRun fold_left]. apply IH.
    apply panelStep_amountPattern. exact Hs. }
  specialize (H initialState eq_refl).
  split; [exact H |].
  unfold simulationAmount. apply amountPattern_amount. exact H.
Qed.

(** ** The gas-limit field: what [parseInt] reads *)





(** ** The candlestick chart *)

Lemma candleLoop_groups (ethUsdPrice : Q) :
  forall (fuel : nat) (before rest : list GasPoint.t)
         (candles : list Candle.t) (points : list LinePoint.t),
    (List.length rest < fuel)%nat ->
    candleLoop fuel (before ++ rest) ethUsdPrice (List.length before)
      candles points
    = Some
        (candles ++ fst (candlesOfGroups rest ethUsdPrice),
         points ++ snd (candlesOfGroups rest ethUsdPrice)).
Proof.
  induction fuel as [| fuel IH]; intros before rest candles points Hfuel;
    [lia |].
  cbn [candleLoop]. rewrite length_app.
  destruct rest as [| a [| b [| c [| d [| e rest']]]]];
    try (replace (Z.of_nat (List.length before)
                  <? Z.of_nat (List.length before + List.length _) - 4)
           with false
           by (symmetry; apply Z.ltb_ge; cbn [List.length]; lia);
         unfold candlesOfGroups; cbn [groupsOfFour map fst snd];
         rewrite !app_nil_r; reflexivity).
  replace (Z.of_nat (List.length before)
           <? Z.of_nat (List.length before
                        + List.length (a :: b :: c :: d :: e :: rest')) - 4)
    with true by (symmetry; apply Z.ltb_lt; cbn [List.length]; lia).
  unfold sliceFour. rewrite skipn_app, skipn_all, Nat.sub_diag.
  cbn [app skipn firstn].
  destruct (candleOf ethUsdPrice a [b; c; d]) as [candle point] eqn:Ecandle.
  replace (before ++ a :: b :: c :: d :: e :: rest')
    with ((before ++ [a; b; c; d]) ++ e :: rest')
    by (rewrite <- app_assoc; reflexivity).
  replace (List.length before + 4)%nat
    with (List.length (before ++ [a; b; c; d]))
    by (rewrite length_app; reflexivity).
  rewrite IH by (cbn [List.length] in *; lia).
  unfold candlesOfGroups. cbn [groupsOfFour map fst snd].
  rewrite Ecandle. cbn [fst snd].
  rewrite <- !app_assoc. reflexivity.
Qed.

Lemma groupsOfFour_length (n : nat) :
  forall l : list GasPoint.t,
    (List.length l <= n)%nat ->
    List.length (groupsOfFour l) = ((List.length l - 1) / 4)%nat.
Proof.
  induction n as [| n IH]; intros l Hn.
  - destruct l; [reflexivity | cbn in Hn; lia].
  - destruct l as [| a [| b [| c [| d [| e rest]]]]]; try reflexivity.
    change (groupsOfFour (a :: b :: c :: d :: e :: rest))
      with ((a, [b; c; d]) :: groupsOfFour (e :: rest)).
    change (List.length ((a, [b; c; d]) :: groupsOfFour (e :: rest)))
      with (S (List.length (groupsOfFour (e :: rest)))).
    rewrite (IH (e :: rest)) by (cbn [List.length] in *; lia).
    cbn [List.length].
    replace (S (S (S (S (S (List.length rest))))) - 1)%nat
      with (List.length rest + 1 * 4)%nat by lia.
    rewrite Nat.div_add by discriminate.
    replace (S (List.length rest) - 1)%nat with (List.length rest) by lia.
    lia.
Qed.

(** X22. The chart effect draws nothing for an empty series.  Otherwise
    its loop ends, and it draws one candle and one USD point for each
    group of four consecutive points that is followed by at least one
    more point: [floor((n - 1) / 4)] candles for [n] points.  So four
    points or fewer give no candle at all, and the newest point of the
    series is never part of a candle. *)
Theorem chartSeries_groups_of_four (chartData : list GasPoint.t)
    (ethUsdPrice : Q) :
  (chartData = [] -> chartSeries chartData ethUsdPrice = None)
  /\ (chartData <> [] ->
      chartSeries chartData ethUsdPrice
      = Some (candlesOfGroups chartData ethUsdPrice)
      /\ List.length (fst (candlesOfGroups chartData ethUsdPrice))
         = ((List.length chartData - 1) / 4)%nat
      /\ List.length (snd (candlesOfGroups chartData ethUsdPrice))
         = ((List.length chartData - 1) / 4)%nat
      /\ (4 * List.length (fst (candlesOfGroups chartData ethUsdPrice))
          < List.length chartData)%nat
      /\ ((List.length chartData <= 4)%nat ->
          candlesOfGroups chartData ethUsdPrice = ([], []))).
Proof.
  split.
  - intros ->. reflexivity.
  - intros Hne. unfold chartSeries.
    destruct chartData as [| p rest]; [contradiction |].
    cbn [List.length Nat.eqb].
    assert (Hcount :
      List.length (groupsOfFour (p :: rest))
      = ((List.length (p :: rest) - 1) / 4)%nat)
      by (apply (groupsOfFour_length (List.length (p :: rest))); lia).
    split; [| split; [| split; [| split]]].
    + apply (candleLoop_groups ethUsdPrice (S (S (List.length rest))) []
               (p :: rest) [] []).
      cbn [List.length]. lia.
    + unfold candlesOfGroups. cbn [fst]. rewrite !length_map. exact Hcount.
    + unfold candlesOfGroups. cbn [snd]. rewrite !length_map. exact Hcount.
    + unfold candlesOfGroups. cbn [fst]. rewrite !length_map, Hcount.
      cbn [List.length].
      replace (S (List.length rest) - 1)%nat with (List.length rest) by lia.
      pose proof (Nat.Div0.mul_div_le (List.length rest) 4). lia.
    + intros Hshort.
      destruct rest as [| b [| c [| d [| e rest']]]]; try reflexivity.
      cbn [List.length] in Hshort. lia.
Qed.

Lemma chartSeries_groups_of_four_witness :
  chartSeries [] 2000 = None
  /\ List.length (fst (candlesOfGroups sampleSeries 2000)) = 2%nat
  /\ candlesOfGroups (firstn 4 sampleSeries) 2000 = ([], []).
Proof.
  split; [| split].
  - apply (chartSeries_groups_of_four [] 2000). reflexivity.
  - destruct (chartSeries_groups_of_four sampleSeries 2000) as [_ H].
    destruct H as (_ & Hlen & _); [discriminate |].
    rewrite Hlen. reflexivity.
  - destruct (chartSeries_groups_of_four (firstn 4 sampleSeries) 2000)
      as [_ H].
    destruct H as (_ & _ & _ & _ & Hshort); [discriminate |].
    apply Hshort. cbn. lia.
Defined.

Lemma maxOf_upper (others : list Q) :
  forall first : Q,
    (first <= maxOf first others)%Q
    /\ Forall (fun x => (x <= maxOf first others)%Q) others.
Proof.
  unfold maxOf.
  induction others as [| x rest IH]; intros first; cbn [fold_left].
  - split; [apply Qle_refl | constructor].
  - destruct (IH (Qmax first x)) as [Hacc Hrest]. split.
    + apply Qle_trans with (Qmax first x); [apply Q.le_max_l | exact Hacc].
    + constructor; [| exact Hrest].
      apply Qle_trans with (Qmax first x); [apply Q.le_max_r | exact Hacc].
Qed.

Lemma minOf_lower (others : list Q) :
  forall first : Q,
    (minOf first others <= first)%Q
    /\ Forall (fun x => (minOf first others <= x)%Q) others.
Proof.
  unfold minOf.
  induction others as [| x rest IH]; intros first; cbn [fold_left].
  - split; [apply Qle_refl | constructor].
  - destruct (IH (Qmin first x)) as [Hacc Hrest]. split.
    + apply Qle_trans with (Qmin first x); [exact Hacc | apply Q.le_min_l].
    + constructor; [| exact Hrest].
      apply Qle_trans with (Qmin first x); [exact Hacc | apply Q.le_min_r].
Qed.

Lemma last_in_group (first : GasPoint.t) (others : list GasPoint.t) :
  last others first = first \/ In (last others first) others.
Proof.
  destruct others as [| p rest]; [left; reflexivity |].
  right. revert p. induction rest as [| q rest IH]; intros p.
  - left. reflexivity.
  - right. change (In (last (q :: rest) first) (q :: rest)). apply IH.
Qed.

(** A candle is well formed: its low is at most its open and its close,
    and its high at least both. *)
Lemma candleOf_shape (ethUsdPrice : Q) (first : GasPoint.t)
    (others : list GasPoint.t) :
  let candle := fst (candleOf ethUsdPrice first others) in
  (Candle.low candle <= Candle.open candle <= Candle.high candle
   /\ Candle.low candle <= Candle.close candle <= Candle.high candle)%Q.
Proof.
  cbv zeta. unfold candleOf.
  cbn [fst Candle.low Candle.open Candle.high Candle.close].
  destruct (maxOf_upper (map GasPoint.totalFee others)
              (GasPoint.totalFee first)) as [Hmax1 Hmax2].
  destruct (minOf_lower (map GasPoint.totalFee others)
              (GasPoint.totalFee first)) as [Hmin1 Hmin2].
  split; [split; assumption |].
  destruct (last_in_group first others) as [-> | Hin].
  - split; assumption.
  - rewrite Forall_forall in Hmax2, Hmin2.
    split; [apply Hmin2 | apply Hmax2];
      apply in_map; exact Hin.
Qed.

Lemma chartSeries_some (chartData : list GasPoint.t) (ethUsdPrice : Q) :
  chartData <> [] ->
  chartSeries chartData ethUsdPrice
  = Some (candlesOfGroups chartData ethUsdPrice).
Proof.
  intros Hne. unfold chartSeries.
  destruct chartData as [| p rest]; [contradiction |].
  cbn [List.length Nat.eqb].
  apply (candleLoop_groups ethUsdPrice (S (S (List.length rest))) []
           (p :: rest) [] []).
  cbn [List.length]. lia.
Qed.

(** X23. Every candle drawn is well formed: its low is at most its open
    and its close, and its high is at least both.  The USD line has one
    point per candle, at the candle's time, and it is flat at 0 while the
    exchange rate is still 0. *)
Theorem chartSeries_candles_well_formed (chartData : list GasPoint.t)
    (ethUsdPrice : Q) :
  chartData <> [] ->
  exists (candles : list Candle.t) (points : list LinePoint.t),
    chartSeries chartData ethUsdPrice = Some (candles, points)
    /\ Forall
         (fun c =>
            (Candle.low c <= Candle.open c <= Candle.high c
             /\ Candle.low c <= Candle.close c <= Candle.high c)%Q)
         candles
    /\ map Candle.time candles = map LinePoint.time points
    /\ ((ethUsdPrice == 0)%Q ->
        Forall (fun point => (LinePoint.value point == 0)%Q) points).
Proof.
  intros Hne.
  exists (fst (candlesOfGroups chartData ethUsdPrice)),
    (snd (candlesOfGroups chartData ethUsdPrice)).
  split.
  { rewrite chartSeries_some by assumption.
    destruct (candlesOfGroups chartData ethUsdPrice). reflexivity. }
  unfold candlesOfGroups. cbn [fst snd]. rewrite !map_map.
  split; [| split].
  - apply Forall_map, Forall_forall. intros g _.
    apply (candleOf_shape ethUsdPrice (fst g) (snd g)).
  - reflexivity.
  - intros Hprice. apply Forall_map, Forall_forall. intros g _.
    unfold candleOf. cbn [snd LinePoint.value].
    rewrite Hprice. apply Qmult_0_r.
Qed.

Lemma chartSeries_candles_well_formed_witness :
  exists (candles : list Candle.t) (points : list LinePoint.t),
    chartSeries sampleSeries 0 = Some (candles, points)
    /\ Forall
         (fun c =>
            (Candle.low c <= Candle.open c <= Candle.high c
             /\ Candle.low c <= Candle.close c <= Candle.high c)%Q)
         candles
    /\ map Candle.time candles = map LinePoint.time points
    /\ Forall (fun point => (LinePoint.value point == 0)%Q) points.
Proof.
  destruct (chartSeries_candles_well_formed sampleSeries 0)
    as (candles & points & Hseries & Hshape & Htime & Hflat);
    [discriminate |].
  exists candles, points.
  split; [exact Hseries | split; [exact Hshape | split; [exact Htime |]]].
  apply Hflat. reflexivity.
Defined.

(** ** The life cycle of the service *)

Lemma chainOf_setError_setLoading (chain : ChainKey) (e : option string)
    (b : bool) (s : GasState.t) :
  chainOf chain (setError e (setLoading b s)) = chainOf chain s.
Proof. reflexivity. Qed.

Lemma isConnected_setupProvider (now : Z) (chainName chain : ChainKey)
    (connected : bool) (s : GasState.t) :
  ChainData.isConnected
    (chainOf chain (setupProvider now chainName connected s))
  = if chainKeyEqb chainName chain then connected
    else ChainData.isConnected (chainOf chain s).
Proof.
  unfold setupProvider.
  destruct (ChainKey_eq_dec chainName chain) as [<- | Hneq].
  - rewrite chainOf_updateChainData_same.
    destruct chainName; reflexivity.
  - rewrite chainOf_updateChainData_other by assumption.
    destruct chainName, chain; try reflexivity; congruence.
Qed.



Lemma setupDemoData_steps (now1 now2 now3 : Z) (draws : TickDraws)
    (s : GasState.t) :
  setupDemoData now1 now2 now3 draws s
  = updateSimulatedData draws (demoConnected now1 now2 now3 s).
Proof. reflexivity. Qed.

Lemma history_setupProvider (now : Z) (chainName chain : ChainKey)
    (connected : bool) (s : GasState.t) :
  ChainData.history (chainOf chain (setupProvider now chainName connected s))
  = ChainData.history (chainOf chain s).
Proof.
  unfold setupProvider.
  destruct (ChainKey_eq_dec chainName chain) as [<- | Hneq].
  - rewrite chainOf_updateChainData_same. reflexivity.
  - rewrite chainOf_updateChainData_other by assumption. reflexivity.
Qed.

Lemma demoConnected_chain (now1 now2 now3 : Z) (chain : ChainKey)
    (s : GasState.t) :
  ChainData.isConnected (chainOf chain (demoConnected now1 now2 now3 s))
  = true
  /\ ChainData.history (chainOf chain (demoConnected now1 now2 now3 s))
     = ChainData.history (chainOf chain s).
Proof.
  unfold demoConnected.
  change (chainOf chain (setEthUsdPrice ?p ?x)) with (chainOf chain x).
  split.
  - rewrite !isConnected_setupProvider. destruct chain; reflexivity.
  - rewrite !history_setupProvider. reflexivity.
Qed.

Lemma updateSimulatedData_chain (draws : TickDraws) (chain : ChainKey)
    (s : GasState.t) :
  ChainData.isConnected (chainOf chain (updateSimulatedData draws s))
  = ChainData.isConnected (chainOf chain s)
  /\ List.length
       (ChainData.history (chainOf chain (updateSimulatedData draws s)))
     = Nat.min 100 (List.length (ChainData.history (chainOf chain s)) + 1).
Proof.
  rewrite chainOf_updateSimulatedData, chainOf_simulateChain_same.
  cbn [ChainData.isConnected ChainData.history ChainData.with_history
         ChainData.with_lastUpdate ChainData.spread ChainData.pick
         feeUpdate ChainData.isConnected'].
  split; [reflexivity |].
  rewrite slice_last_length, length_app. reflexivity.
Qed.

(** X25. The demo [initialize] does nothing on a service that is already
    initialised.  [disconnect] clears the providers and the flag only: it
    leaves the store as it was, so every chain still shows as connected,
    and it cancels no timer, so initialising again leaves two timers
    running and appends a further point to every history. *)
Theorem demo_lifecycle (first again : Demo.Inputs) (s : GasState.t) :
  let w1 := Demo.initialize first (Service.initial, s) in
  let w2 := Demo.initialize again (disconnect w1) in
  Demo.initialize again w1 = w1
  /\ snd (disconnect w1) = snd w1
  /\ (forall chain : ChainKey,
        ChainData.isConnected (chainOf chain (snd (disconnect w1))) = true)
  /\ Service.isInitialized (fst (disconnect w1)) = false
  /\ Service.intervals (fst (disconnect w1)) = 1%nat
  /\ Service.intervals (fst w2) = 2%nat
  /\ (forall chain : ChainKey,
        List.length (historyOf chain (snd w2))
        = Nat.min 100 (List.length (historyOf chain (snd w1)) + 1)).
Proof.
  cbv zeta. unfold Demo.initialize, disconnect, Service.initial.
  cbn [Service.isInitialized markInitialized addInterval fst snd
         Service.intervals].
  split; [reflexivity |]. split; [reflexivity |].
  split; [| split; [reflexivity | split; [reflexivity |
    split; [reflexivity |]]]].
  - intros chain. rewrite chainOf_setError_setLoading, setupDemoData_steps.
    destruct (updateSimulatedData_chain (Demo.draws first) chain
                (demoConnected (Demo.now1 first) (Demo.now2 first)
                   (Demo.now3 first) s)) as [-> _].
    apply demoConnected_chain.
  - intros chain. unfold historyOf.
    change (Chains.get chain (GasState.chains ?x)) with (chainOf chain x).
    rewrite !chainOf_setError_setLoading.
    rewrite (setupDemoData_steps (Demo.now1 again)).
    destruct (updateSimulatedData_chain (Demo.draws again) chain
                (demoConnected (Demo.now1 again) (Demo.now2 again)
                   (Demo.now3 again)
                   (setError None
                      (setLoading false
                         (setupDemoData (Demo.now1 first) (Demo.now2 first)
                            (Demo.now3 first) (Demo.draws first) s)))))
      as [_ ->].
    destruct (demoConnected_chain (Demo.now1 again) (Demo.now2 again)
                (Demo.now3 again) chain
                (setError None
                   (setLoading false
                      (setupDemoData (Demo.now1 first) (Demo.now2 first)
                         (Demo.now3 first) (Demo.draws first) s))))
      as [_ ->].
    rewrite chainOf_setError_setLoading. reflexivity.
Qed.
